(** * Streaming VAD: the segmentation engine of [streaming_vad.py]

    A shallow embedding of [StreamingVAD] (src/streaming_vad/streaming_vad.py)
    and of the part of the VAD units it relies on
    (src/streaming_vad/vad_unit/{base,webrtcvad,silero}.py).

    Python integers are [Z], [bytes] is a list of bytes, a [List[bytes]] is a
    list of frames.  A method is a computation in a state-and-exception monad
    over the object it mutates: when a call raises, the mutations done before
    the raise stay in the object, as they do in Python. *)

From Stdlib Require Import ZArith List Bool Lia.
From Stdlib.Strings Require Import Byte.
Import ListNotations.
Open Scope Z_scope.

(** ** Python values *)

Definition bytes := list byte.

(** [len(x)] *)
Definition len {A : Type} (l : list A) : Z := Z.of_nat (length l).

(** [b''.join(frames)] *)
Definition join (frames : list bytes) : bytes := concat frames.

(** The exceptions the modelled code raises.  Each [assert] of the source has a
    tag of its own, so that the engine's assertion on the frame size can be
    told from the unit's assertion on the window size. *)
Inductive Assertion : Type :=
| SampleRateMismatch          (* streaming_vad.py:97 *)
| SampleWidthMismatch         (* streaming_vad.py:98 *)
| SamplesPerFrameMismatch     (* streaming_vad.py:100 *)
| SamplesPerFrameNotMultiple  (* streaming_vad.py:101 *)
| DataSizeInvalid             (* streaming_vad.py:133 *)
| UnitInvalidSampleRate       (* webrtcvad.py:43 *)
| UnitInvalidSampleWidth      (* webrtcvad.py:44 *)
| UnitInvalidFrameSize        (* webrtcvad.py:46 *)
| UnitDataSizeInvalid.        (* webrtcvad.py:49, silero.py:38 *)

Inductive Exception : Type :=
| AssertionError (a : Assertion)
| ValueError          (* streaming_vad.py:181 *)
| IndexError          (* list.pop on an empty list *)
| ZeroDivisionError.  (* [%] and [//] by zero *)

Inductive result (A : Type) : Type :=
| Ok (a : A)
| Raise (e : Exception).
Arguments Ok {A} a.
Arguments Raise {A} e.

(** ** Methods as computations over the object *)

Definition Py (S A : Type) : Type := S -> result A * S.

Definition ret {S A : Type} (a : A) : Py S A := fun s => (Ok a, s).

Definition raise {S A : Type} (e : Exception) : Py S A := fun s => (Raise e, s).

Definition bind {S A B : Type} (c : Py S A) (k : A -> Py S B) : Py S B :=
  fun s =>
    match c s with
    | (Ok a, s') => k a s'
    | (Raise e, s') => (Raise e, s')
    end.

Definition get {S : Type} : Py S S := fun s => (Ok s, s).

Definition modify {S : Type} (f : S -> S) : Py S unit := fun s => (Ok tt, f s).

(** [assert cond, tag] *)
Definition assert {S : Type} (cond : bool) (a : Assertion) : Py S unit :=
  if cond then ret tt else raise (AssertionError a).

Declare Scope py_scope.
Delimit Scope py_scope with py.
Notation "x <- c ;; k" := (bind c (fun x => k))
  (at level 61, c at next level, right associativity) : py_scope.
Notation "c ;; k" := (bind c (fun _ => k))
  (at level 61, right associativity) : py_scope.
Open Scope py_scope.

(** ** VAD units (vad_unit/base.py, webrtcvad.py, silero.py) *)

(** What a unit delegates to its library ([Vad.is_speech] of webrtcvad, the
    Silero network followed by the comparison with the threshold): a decision
    on a window, which may depend on and change the library object.  The
    library is taken to answer every window that has passed the unit's size
    assertion. *)
Class Inference (M : Type) : Type :=
  infer : M -> bytes -> bool * M.

(** [class VADState(Enum)] *)
Inductive VADState : Type := Idle | Started | Ended | Continue.

(** [@dataclass class VADData] *)
Record VADData : Type := {
  state : VADState;
  data : list bytes
}.

Section Engine.

Context {M : Type} {INF : Inference M}.

(** [VADUnitBase]: the attributes behind the read-only properties, and the
    library object the concrete unit holds. *)
Record VADUnit : Type := {
  _sample_rate : Z;
  _sample_width : Z;
  _samples_per_frame : Z;
  _actual_frame_size_in_bytes : Z;
  model : M
}.

Definition set_model (u : VADUnit) (m : M) : VADUnit :=
  {| _sample_rate := _sample_rate u;
     _sample_width := _sample_width u;
     _samples_per_frame := _samples_per_frame u;
     _actual_frame_size_in_bytes := _actual_frame_size_in_bytes u;
     model := m |}.

(** Python's [a // b] *)
Definition floordiv {S : Type} (a b : Z) : Py S Z :=
  if b =? 0 then raise ZeroDivisionError else ret (a / b).

(** Python's [a % b] *)
Definition pymod {S : Type} (a b : Z) : Py S Z :=
  if b =? 0 then raise ZeroDivisionError else ret (a mod b).

Definition Z_in (x : Z) (l : list Z) : bool := existsb (Z.eqb x) l.

(** [VADUnitWebRTC.__init__]; [vad] is [Vad(mode)]. *)
Definition VADUnitWebRTC_init (vad : M)
    (sample_rate sample_width samples_per_frame : Z) : result VADUnit :=
  let self := {| _sample_rate := sample_rate;
                 _sample_width := sample_width;
                 _samples_per_frame := samples_per_frame;
                 _actual_frame_size_in_bytes := sample_width * samples_per_frame;
                 model := vad |} in
  fst ((assert (Z_in (_sample_rate self) [8000; 16000; 32000; 48000])
          UnitInvalidSampleRate ;;
        assert (Z_in (_sample_width self) [2]) UnitInvalidSampleWidth ;;
        actual_frame_size_in_ms <-
          floordiv (1000 * _samples_per_frame self) (_sample_rate self) ;;
        assert (Z_in actual_frame_size_in_ms [10; 20; 30]) UnitInvalidFrameSize ;;
        self <- get ;;
        ret self) self).

(** [VADUnitSilero.__init__]; [net] is the loaded network together with the
    threshold it is compared against. *)
Definition VADUnitSilero_init (net : M) : VADUnit :=
  {| _sample_rate := 16000;
     _sample_width := 2;
     _samples_per_frame := 640;
     _actual_frame_size_in_bytes := 2 * 640;
     model := net |}.

(** [VADUnitWebRTC.process] and [VADUnitSilero.process]: the size assertion,
    then the library's decision. *)
Definition VADUnit_process (data : bytes) : Py VADUnit bool :=
  self <- get ;;
  assert (len data =? _actual_frame_size_in_bytes self) UnitDataSizeInvalid ;;
  fun self =>
    let '(r, m) := infer (model self) data in
    (Ok r, set_model self m).

(** ** The engine (streaming_vad.py) *)

(** The attributes of a [StreamingVAD] object.  [vad_unit_count] is the
    attribute lines 161 and 175 assign; it does not exist ([None]) until one
    of them has run. *)
Record StreamingVAD : Type := {
  sample_rate : Z;
  sample_width : Z;
  samples_per_frame : Z;
  start_frame_num_thresh : Z;
  start_frame_rollback : Z;
  end_frame_num_thresh : Z;
  output_idle_frame : bool;
  vad_unit : VADUnit;
  actual_frame_size_in_bytes : Z;
  vad_unit_frame_ratio : Z;
  vad_unit_frame_buffer : list bytes;
  prev_vad_unit_result : bool;
  vad_unit_result_count : Z;
  vad_state : VADState;
  vad_result_buffer : list bytes;
  vad_unit_count : option Z
}.

Definition set_vad_unit (self : StreamingVAD) (u : VADUnit) : StreamingVAD :=
  {| sample_rate := sample_rate self;
     sample_width := sample_width self;
     samples_per_frame := samples_per_frame self;
     start_frame_num_thresh := start_frame_num_thresh self;
     start_frame_rollback := start_frame_rollback self;
     end_frame_num_thresh := end_frame_num_thresh self;
     output_idle_frame := output_idle_frame self;
     vad_unit := u;
     actual_frame_size_in_bytes := actual_frame_size_in_bytes self;
     vad_unit_frame_ratio := vad_unit_frame_ratio self;
     vad_unit_frame_buffer := vad_unit_frame_buffer self;
     prev_vad_unit_result := prev_vad_unit_result self;
     vad_unit_result_count := vad_unit_result_count self;
     vad_state := vad_state self;
     vad_result_buffer := vad_result_buffer self;
     vad_unit_count := vad_unit_count self |}.

Definition set_vad_unit_frame_buffer (self : StreamingVAD) (b : list bytes)
    : StreamingVAD :=
  {| sample_rate := sample_rate self;
     sample_width := sample_width self;
     samples_per_frame := samples_per_frame self;
     start_frame_num_thresh := start_frame_num_thresh self;
     start_frame_rollback := start_frame_rollback self;
     end_frame_num_thresh := end_frame_num_thresh self;
     output_idle_frame := output_idle_frame self;
     vad_unit := vad_unit self;
     actual_frame_size_in_bytes := actual_frame_size_in_bytes self;
     vad_unit_frame_ratio := vad_unit_frame_ratio self;
     vad_unit_frame_buffer := b;
     prev_vad_unit_result := prev_vad_unit_result self;
     vad_unit_result_count := vad_unit_result_count self;
     vad_state := vad_state self;
     vad_result_buffer := vad_result_buffer self;
     vad_unit_count := vad_unit_count self |}.

Definition set_prev_vad_unit_result (self : StreamingVAD) (r : bool)
    : StreamingVAD :=
  {| sample_rate := sample_rate self;
     sample_width := sample_width self;
     samples_per_frame := samples_per_frame self;
     start_frame_num_thresh := start_frame_num_thresh self;
     start_frame_rollback := start_frame_rollback self;
     end_frame_num_thresh := end_frame_num_thresh self;
     output_idle_frame := output_idle_frame self;
     vad_unit := vad_unit self;
     actual_frame_size_in_bytes := actual_frame_size_in_bytes self;
     vad_unit_frame_ratio := vad_unit_frame_ratio self;
     vad_unit_frame_buffer := vad_unit_frame_buffer self;
     prev_vad_unit_result := r;
     vad_unit_result_count := vad_unit_result_count self;
     vad_state := vad_state self;
     vad_result_buffer := vad_result_buffer self;
     vad_unit_count := vad_unit_count self |}.

Definition set_vad_unit_result_count (self : StreamingVAD) (c : Z)
    : StreamingVAD :=
  {| sample_rate := sample_rate self;
     sample_width := sample_width self;
     samples_per_frame := samples_per_frame self;
     start_frame_num_thresh := start_frame_num_thresh self;
     start_frame_rollback := start_frame_rollback self;
     end_frame_num_thresh := end_frame_num_thresh self;
     output_idle_frame := output_idle_frame self;
     vad_unit := vad_unit self;
     actual_frame_size_in_bytes := actual_frame_size_in_bytes self;
     vad_unit_frame_ratio := vad_unit_frame_ratio self;
     vad_unit_frame_buffer := vad_unit_frame_buffer self;
     prev_vad_unit_result := prev_vad_unit_result self;
     vad_unit_result_count := c;
     vad_state := vad_state self;
     vad_result_buffer := vad_result_buffer self;
     vad_unit_count := vad_unit_count self |}.

Definition set_vad_state (self : StreamingVAD) (st : VADState) : StreamingVAD :=
  {| sample_rate := sample_rate self;
     sample_width := sample_width self;
     samples_per_frame := samples_per_frame self;
     start_frame_num_thresh := start_frame_num_thresh self;
     start_frame_rollback := start_frame_rollback self;
     end_frame_num_thresh := end_frame_num_thresh self;
     output_idle_frame := output_idle_frame self;
     vad_unit := vad_unit self;
     actual_frame_size_in_bytes := actual_frame_size_in_bytes self;
     vad_unit_frame_ratio := vad_unit_frame_ratio self;
     vad_unit_frame_buffer := vad_unit_frame_buffer self;
     prev_vad_unit_result := prev_vad_unit_result self;
     vad_unit_result_count := vad_unit_result_count self;
     vad_state := st;
     vad_result_buffer := vad_result_buffer self;
     vad_unit_count := vad_unit_count self |}.

Definition set_vad_result_buffer (self : StreamingVAD) (b : list bytes)
    : StreamingVAD :=
  {| sample_rate := sample_rate self;
     sample_width := sample_width self;
     samples_per_frame := samples_per_frame self;
     start_frame_num_thresh := start_frame_num_thresh self;
     start_frame_rollback := start_frame_rollback self;
     end_frame_num_thresh := end_frame_num_thresh self;
     output_idle_frame := output_idle_frame self;
     vad_unit := vad_unit self;
     actual_frame_size_in_bytes := actual_frame_size_in_bytes self;
     vad_unit_frame_ratio := vad_unit_frame_ratio self;
     vad_unit_frame_buffer := vad_unit_frame_buffer self;
     prev_vad_unit_result := prev_vad_unit_result self;
     vad_unit_result_count := vad_unit_result_count self;
     vad_state := vad_state self;
     vad_result_buffer := b;
     vad_unit_count := vad_unit_count self |}.

Definition set_vad_unit_count (self : StreamingVAD) (c : option Z)
    : StreamingVAD :=
  {| sample_rate := sample_rate self;
     sample_width := sample_width self;
     samples_per_frame := samples_per_frame self;
     start_frame_num_thresh := start_frame_num_thresh self;
     start_frame_rollback := start_frame_rollback self;
     end_frame_num_thresh := end_frame_num_thresh self;
     output_idle_frame := output_idle_frame self;
     vad_unit := vad_unit self;
     actual_frame_size_in_bytes := actual_frame_size_in_bytes self;
     vad_unit_frame_ratio := vad_unit_frame_ratio self;
     vad_unit_frame_buffer := vad_unit_frame_buffer self;
     prev_vad_unit_result := prev_vad_unit_result self;
     vad_unit_result_count := vad_unit_result_count self;
     vad_state := vad_state self;
     vad_result_buffer := vad_result_buffer self;
     vad_unit_count := c |}.

(** The constructor's arguments, lines 55-61; the unit is the object line 93
    builds from [vad_unit_name] and [vad_unit_config]. *)
Record Args : Type := {
  arg_sample_rate : Z;
  arg_sample_width : Z;
  arg_samples_per_frame : Z;
  arg_start_frame_num_thresh : Z;
  arg_start_frame_rollback : Z;
  arg_end_frame_num_thresh : Z;
  arg_output_idle_frame : bool
}.

(** The defaults of the signature. *)
Definition default_args : Args :=
  {| arg_sample_rate := 16000;
     arg_sample_width := 2;
     arg_samples_per_frame := 160;
     arg_start_frame_num_thresh := 5;
     arg_start_frame_rollback := 10;
     arg_end_frame_num_thresh := 30;
     arg_output_idle_frame := false |}.

(** [StreamingVAD.__init__], lines 78-84 and 95-119. *)
Definition __init__ (a : Args) (unit_ : VADUnit) : result StreamingVAD :=
  fst ((assert (arg_sample_rate a =? _sample_rate unit_) SampleRateMismatch ;;
        assert (arg_sample_width a =? _sample_width unit_) SampleWidthMismatch ;;
        assert (arg_samples_per_frame a <=? _samples_per_frame unit_)
          SamplesPerFrameMismatch ;;
        r <- pymod (_samples_per_frame unit_) (arg_samples_per_frame a) ;;
        assert (r =? 0) SamplesPerFrameNotMultiple ;;
        ratio <- floordiv (_samples_per_frame unit_) (arg_samples_per_frame a) ;;
        ret {| sample_rate := arg_sample_rate a;
               sample_width := arg_sample_width a;
               samples_per_frame := arg_samples_per_frame a;
               start_frame_num_thresh := arg_start_frame_num_thresh a;
               start_frame_rollback := arg_start_frame_rollback a;
               end_frame_num_thresh := arg_end_frame_num_thresh a;
               output_idle_frame := arg_output_idle_frame a;
               vad_unit := unit_;
               actual_frame_size_in_bytes :=
                 arg_sample_width a * arg_samples_per_frame a;
               vad_unit_frame_ratio := ratio;
               vad_unit_frame_buffer := [];
               prev_vad_unit_result := false;
               vad_unit_result_count := 0;
               vad_state := Idle;
               vad_result_buffer := [];
               vad_unit_count := None |}) tt).

(** [StreamingVAD.reset], lines 122-128. *)
Definition reset : Py StreamingVAD unit :=
  modify (fun self => set_vad_unit_frame_buffer self []) ;;
  modify (fun self => set_prev_vad_unit_result self false) ;;
  modify (fun self => set_vad_unit_result_count self 0) ;;
  modify (fun self => set_vad_state self Idle) ;;
  modify (fun self => set_vad_result_buffer self []).

(** [self.vad_unit.process(data)]: the unit is an attribute of the engine. *)
Definition call_vad_unit (data : bytes) : Py StreamingVAD bool :=
  fun self =>
    let '(r, u) := VADUnit_process data (vad_unit self) in
    (r, set_vad_unit self u).

(** [self.vad_result_buffer.pop(0)] *)
Definition pop0 : Py StreamingVAD bytes :=
  self <- get ;;
  match vad_result_buffer self with
  | [] => raise IndexError
  | x :: rest => modify (fun self => set_vad_result_buffer self rest) ;; ret x
  end.

(** [StreamingVAD.process], lines 131-182. *)
Definition process (audio_data : bytes) : Py StreamingVAD VADData :=
  self <- get ;;
  assert (len audio_data =? actual_frame_size_in_bytes self) DataSizeInvalid ;;
  (* 135-144 *)
  modify (fun self =>
    set_vad_unit_frame_buffer self (vad_unit_frame_buffer self ++ [audio_data])) ;;
  self <- get ;;
  vad_result <-
    (if len (vad_unit_frame_buffer self) =? vad_unit_frame_ratio self
     then
       r <- call_vad_unit (join (vad_unit_frame_buffer self)) ;;
       modify (fun self => set_vad_unit_frame_buffer self []) ;;
       ret r
     else ret (prev_vad_unit_result self)) ;;
  modify (fun self => set_prev_vad_unit_result self vad_result) ;;
  (* 146-151 *)
  modify (fun self =>
    set_vad_result_buffer self (vad_result_buffer self ++ [audio_data])) ;;
  self <- get ;;
  overflow_data <-
    (if len (vad_result_buffer self) >? start_frame_rollback self
     then x <- pop0 ;; ret (Some x)
     else ret None) ;;
  (* 153-182 *)
  self <- get ;;
  match vad_state self with
  | Idle =>
      modify (fun self =>
        set_vad_unit_result_count self
          (if vad_result then vad_unit_result_count self + 1 else 0)) ;;
      self <- get ;;
      if vad_unit_result_count self >=? start_frame_num_thresh self then
        let return_value :=
          {| state := Started; data := vad_result_buffer self |} in
        modify (fun self => set_vad_result_buffer self []) ;;
        modify (fun self => set_vad_unit_count self (Some 0)) ;;
        modify (fun self => set_vad_state self Continue) ;;
        ret return_value
      else
        let return_value := {| state := Idle; data := [] |} in
        ret (if output_idle_frame self
             then match overflow_data with
                  | Some x =>
                      {| state := state return_value;
                         data := data return_value ++ [x] |}
                  | None => return_value
                  end
             else return_value)
  | Continue =>
      modify (fun self =>
        set_vad_unit_result_count self
          (if vad_result then 0 else vad_unit_result_count self + 1)) ;;
      self <- get ;;
      if vad_unit_result_count self >=? end_frame_num_thresh self then
        let return_value :=
          {| state := Ended; data := vad_result_buffer self |} in
        modify (fun self => set_vad_result_buffer self []) ;;
        modify (fun self => set_vad_unit_count self (Some 0)) ;;
        modify (fun self => set_vad_state self Idle) ;;
        ret return_value
      else
        let return_value :=
          {| state := Continue; data := vad_result_buffer self |} in
        modify (fun self => set_vad_result_buffer self []) ;;
        ret return_value
  | Started | Ended => raise ValueError
  end.

(** The caller's loop ([demo.py], lines 57-61): one [process] call per frame of
    the stream, the events in order; an exception ends the loop. *)
Fixpoint process_all (frames : list bytes) : Py StreamingVAD (list VADData) :=
  match frames with
  | [] => ret []
  | audio_data :: rest =>
      vad_data <- process audio_data ;;
      more <- process_all rest ;;
      ret (vad_data :: more)
  end.

End Engine.

Arguments VADUnit M : clear implicits.
Arguments StreamingVAD M : clear implicits.

(** ** Engines, reachable states and their invariant *)

Section Reachability.

Context {M : Type} {INF : Inference M}.

(** The units [AVAILABLE_VAD_UNITS] can build (lines 9-12, 93). *)
Inductive constructed : VADUnit M -> Prop :=
| constructed_webrtc vad sample_rate sample_width samples_per_frame u :
    VADUnitWebRTC_init vad sample_rate sample_width samples_per_frame = Ok u ->
    constructed u
| constructed_silero net :
    constructed (VADUnitSilero_init net).

(** An object as its constructor leaves it. *)
Inductive fresh : StreamingVAD M -> Prop :=
| fresh_init a u s :
    constructed u -> __init__ a u = Ok s -> fresh s.

(** The states of an object after any calls of its two methods, whatever the
    arguments and whether or not the calls raise. *)
Inductive reachable (s0 : StreamingVAD M) : StreamingVAD M -> Prop :=
| reach_fresh : reachable s0 s0
| reach_process s audio_data :
    reachable s0 s -> reachable s0 (snd (process audio_data s))
| reach_reset s :
    reachable s0 s -> reachable s0 (snd (reset s)).

(** A frame of the size line 133 asks for. *)
Definition valid_frame (s : StreamingVAD M) (audio_data : bytes) : Prop :=
  len audio_data = sample_width s * samples_per_frame s.

(** What the attributes satisfy between calls. *)
Record wf (s : StreamingVAD M) : Prop := {
  wf_frame_size :
    actual_frame_size_in_bytes s = sample_width s * samples_per_frame s;
  wf_ratio :
    vad_unit_frame_ratio s * samples_per_frame s
    = _samples_per_frame (vad_unit s);
  wf_width : sample_width s = _sample_width (vad_unit s);
  wf_unit :
    _actual_frame_size_in_bytes (vad_unit s)
    = _sample_width (vad_unit s) * _samples_per_frame (vad_unit s);
  wf_pending :
    Forall (fun f => len f = actual_frame_size_in_bytes s)
      (vad_unit_frame_buffer s);
  wf_short :
    0 < vad_unit_frame_ratio s ->
    len (vad_unit_frame_buffer s) < vad_unit_frame_ratio s;
  wf_state : vad_state s = Idle \/ vad_state s = Continue;
  wf_output : vad_state s = Continue -> vad_result_buffer s = [];
  wf_count : 0 <= vad_unit_result_count s
}.

(** The attributes [reset] and the constructor agree on. *)
Record blank (s : StreamingVAD M) : Prop := {
  blank_pending : vad_unit_frame_buffer s = [];
  blank_prev : prev_vad_unit_result s = false;
  blank_count : vad_unit_result_count s = 0;
  blank_state : vad_state s = Idle;
  blank_output : vad_result_buffer s = []
}.

(** The windows the unit is asked about while [frames] are processed,
    [pending] being the frames already waiting (lines 136-141). *)
Fixpoint windows (ratio : Z) (pending frames : list bytes) : list bytes :=
  match frames with
  | [] => []
  | audio_data :: rest =>
      let pending' := pending ++ [audio_data] in
      if len pending' =? ratio
      then join pending' :: windows ratio [] rest
      else windows ratio pending' rest
  end.

(** The library's decisions on successive windows. *)
Fixpoint answers (m : M) (ws : list bytes) : list bool :=
  match ws with
  | [] => []
  | w :: rest => let '(r, m') := infer m w in r :: answers m' rest
  end.

(** The library object once it has answered the windows [ws]. *)
Fixpoint after_windows (m : M) (ws : list bytes) : M :=
  match ws with
  | [] => m
  | w :: rest => after_windows (snd (infer m w)) rest
  end.

(** Two objects with the same configuration: the constructor's arguments, what
    the constructor derives from them, and the unit's properties. *)
Record same_config (s1 s2 : StreamingVAD M) : Prop := {
  same_sample_rate : sample_rate s1 = sample_rate s2;
  same_sample_width : sample_width s1 = sample_width s2;
  same_samples_per_frame : samples_per_frame s1 = samples_per_frame s2;
  same_start_thresh : start_frame_num_thresh s1 = start_frame_num_thresh s2;
  same_rollback : start_frame_rollback s1 = start_frame_rollback s2;
  same_end_thresh : end_frame_num_thresh s1 = end_frame_num_thresh s2;
  same_output_idle : output_idle_frame s1 = output_idle_frame s2;
  same_unit_rate : _sample_rate (vad_unit s1) = _sample_rate (vad_unit s2);
  same_unit_width : _sample_width (vad_unit s1) = _sample_width (vad_unit s2);
  same_unit_samples :
    _samples_per_frame (vad_unit s1) = _samples_per_frame (vad_unit s2);
  same_unit_size :
    _actual_frame_size_in_bytes (vad_unit s1)
    = _actual_frame_size_in_bytes (vad_unit s2);
  same_frame_size :
    actual_frame_size_in_bytes s1 = actual_frame_size_in_bytes s2;
  same_ratio : vad_unit_frame_ratio s1 = vad_unit_frame_ratio s2
}.

(** Two objects that differ at most in the library object of the unit and in
    the attribute [vad_unit_count], which no method reads. *)
Record same_engine (s1 s2 : StreamingVAD M) : Prop := {
  same_cfg : same_config s1 s2;
  same_pending : vad_unit_frame_buffer s1 = vad_unit_frame_buffer s2;
  same_prev : prev_vad_unit_result s1 = prev_vad_unit_result s2;
  same_count : vad_unit_result_count s1 = vad_unit_result_count s2;
  same_state : vad_state s1 = vad_state s2;
  same_output : vad_result_buffer s1 = vad_result_buffer s2
}.

End Reachability.

(** ** Proof automation *)

Ltac py_unfold :=
  cbv [process bind get modify ret raise assert call_vad_unit pop0
       VADUnit_process reset floordiv pymod] in *.

Ltac py_fields :=
  cbn [sample_rate sample_width samples_per_frame start_frame_num_thresh
       start_frame_rollback end_frame_num_thresh output_idle_frame vad_unit
       actual_frame_size_in_bytes vad_unit_frame_ratio vad_unit_frame_buffer
       prev_vad_unit_result vad_unit_result_count vad_state vad_result_buffer
       vad_unit_count set_vad_unit set_vad_unit_frame_buffer
       set_prev_vad_unit_result set_vad_unit_result_count set_vad_state
       set_vad_result_buffer set_vad_unit_count
       _sample_rate _sample_width _samples_per_frame
       _actual_frame_size_in_bytes model set_model state data fst snd] in *.

(** Case analysis on an innermost scrutinee of the goal. *)
Ltac break_match :=
  match goal with
  | |- context [match ?x with _ => _ end] =>
      lazymatch x with
      | context [match _ with _ => _ end] => fail
      | _ => destruct x eqn:?
      end
  end.

(** All the paths through a method body. *)
Ltac py_cases := py_unfold; py_fields; repeat (break_match; py_fields).

Ltac to_Z :=
  repeat match goal with
    | H : (_ =? _) = true |- _ => apply Z.eqb_eq in H
    | H : (_ =? _) = false |- _ => apply Z.eqb_neq in H
    | H : (_ >? _) = true |- _ => rewrite Z.gtb_ltb in H; apply Z.ltb_lt in H
    | H : (_ >? _) = false |- _ => rewrite Z.gtb_ltb in H; apply Z.ltb_ge in H
    | H : (_ >=? _) = true |- _ => rewrite Z.geb_leb in H; apply Z.leb_le in H
    | H : (_ >=? _) = false |- _ => rewrite Z.geb_leb in H; apply Z.leb_gt in H
    | H : (_ <=? _) = true |- _ => apply Z.leb_le in H
    | H : (_ <=? _) = false |- _ => apply Z.leb_gt in H
    end.

(** Paths that cannot be taken. *)
Ltac absurd_path :=
  solve [ exfalso; auto
        | exfalso; eapply app_cons_not_nil; eauto
        | congruence ].

(** All the paths of a call whose outcome is the hypothesis [H]. *)
Ltac py_inv H :=
  revert H; py_cases; intros H; try discriminate H;
  try (inversion H; subst; clear H); py_fields; to_Z.

(** Lengths of buffers. *)
Create Rewrite HintDb len.
Ltac len_simpl := autorewrite with len in *.

(** Running an engine on given frames. *)
Ltac evaluate := cbv zeta; repeat apply conj; vm_compute; reflexivity.

(** ** Concrete engines *)

(** A library object that counts the windows it has been given and calls a
    window speech when its first byte is not zero. *)
#[export] Instance first_byte_inference : Inference nat :=
  fun calls window =>
    (match window with
     | b :: _ => negb (Byte.eqb b x00)
     | [] => false
     end, S calls).

(** 10 ms of 16-bit samples at 16 kHz: 320 bytes. *)
Definition speech : bytes := repeat x01 320.
Definition silence : bytes := repeat x00 320.

Definition is_ok {A : Type} (r : result A) : bool :=
  match r with
  | Ok _ => true
  | Raise _ => false
  end.

(** The value of a call known to return. *)
Definition returned {A : Type} (r : result A) : is_ok r = true -> A :=
  match r as r0 return is_ok r0 = true -> A with
  | Ok a => fun _ => a
  | Raise _ => fun H => False_rect A (Bool.diff_false_true H)
  end.

(** The signature's defaults with other thresholds. *)
Definition args_with (start_thresh rollback end_thresh : Z) : Args :=
  {| arg_sample_rate := 16000;
     arg_sample_width := 2;
     arg_samples_per_frame := 160;
     arg_start_frame_num_thresh := start_thresh;
     arg_start_frame_rollback := rollback;
     arg_end_frame_num_thresh := end_thresh;
     arg_output_idle_frame := false |}.

(** [VADUnitWebRTC()] with its defaults: windows of 160 samples, one per
    frame. *)
Definition webrtc_unit : VADUnit nat :=
  returned (VADUnitWebRTC_init 0%nat 16000 2 160) eq_refl.

(** [VADUnitSilero()]: windows of 640 samples, four frames each. *)
Definition silero_unit : VADUnit nat := VADUnitSilero_init 0%nat.

(** [StreamingVAD(vad_unit_name='webrtcvad', vad_unit_config={})]: the
    default thresholds 5, 10 and 30 over the unit's defaults. *)
Definition webrtc_default : StreamingVAD nat :=
  returned (__init__ default_args webrtc_unit) eq_refl.

(** [StreamingVAD(vad_unit_config={})]: the defaults over the Silero unit. *)
Definition silero_default : StreamingVAD nat :=
  returned (__init__ default_args silero_unit) eq_refl.

(** [start_frame_num_thresh=1] *)
Definition webrtc_thresh1 : StreamingVAD nat :=
  returned (__init__ (args_with 1 10 30) webrtc_unit) eq_refl.

(** [start_frame_num_thresh=0] *)
Definition silero_thresh0 : StreamingVAD nat :=
  returned (__init__ (args_with 0 10 30) silero_unit) eq_refl.

(** [start_frame_rollback=0] *)
Definition webrtc_rollback0 : StreamingVAD nat :=
  returned (__init__ (args_with 5 0 30) webrtc_unit) eq_refl.

(** [start_frame_rollback=-1] *)
Definition webrtc_rollback_neg : StreamingVAD nat :=
  returned (__init__ (args_with 5 (-1) 30) webrtc_unit) eq_refl.

(** The state an engine is left in by a stream. *)
Definition after (frames : list bytes) (s : StreamingVAD nat)
    : StreamingVAD nat :=
  snd (process_all frames s).

(** ** Streams of frames *)

Section Classification.

Context {M : Type} {INF : Inference M}.

(** The classification each frame of a stream is given (lines 136-144): the
    unit's answer on the call that completes a window, the classification of
    the frame before on any other call. *)
Fixpoint classifications (ratio : Z) (m : M) (prev : bool)
    (pending frames : list bytes) : list bool :=
  match frames with
  | [] => []
  | audio_data :: rest =>
      let pending' := pending ++ [audio_data] in
      if len pending' =? ratio
      then
        let '(r, m') := infer m (join pending') in
        r :: classifications ratio m' r [] rest
      else prev :: classifications ratio m prev pending' rest
  end.

End Classification.

(** The resting state a call leaves, given the resting state it found and
    the tag of the event it returned (lines 153-182). *)
Definition tag_after (resting tag : VADState) : option VADState :=
  match resting, tag with
  | Idle, Idle => Some Idle
  | Idle, Started => Some Continue
  | Continue, Continue => Some Continue
  | Continue, Ended => Some Idle
  | _, _ => None
  end.

Fixpoint tags_after (resting : VADState) (tags : list VADState)
    : option VADState :=
  match tags with
  | [] => Some resting
  | tag :: rest =>
      match tag_after resting tag with
      | Some resting' => tags_after resting' rest
      | None => None
      end
  end.

(** The last [n] elements of a list, all of it when it has fewer. *)
Definition lastn {A : Type} (n : nat) (l : list A) : list A :=
  skipn (length l - n) l.

(** A frame told from others by its bytes: classified by [first], filled
    with [fill]. *)
Definition frame (first fill : byte) : bytes := first :: repeat fill 319.

(** The events of a stream known to be processed. *)
Definition events (frames : list bytes) (s : StreamingVAD nat)
    : is_ok (fst (process_all frames s)) = true -> list VADData :=
  returned (fst (process_all frames s)).

(** Two segments: six speech frames, thirty silent frames that end the first
    segment, two speech frames and thirty silent frames that end the
    second. *)
Definition two_segments : list bytes :=
  repeat speech 6 ++ repeat silence 30 ++ repeat speech 2 ++ repeat silence 30.

(** Three silent frames and five speech frames, numbered. *)
Definition onset : list bytes :=
  [frame x00 x01; frame x00 x02; frame x00 x03; frame x01 x04;
   frame x01 x05; frame x01 x06; frame x01 x07; frame x01 x08].

(** Thirteen silent frames, numbered. *)
Definition long_silence : list bytes :=
  [frame x00 x01; frame x00 x02; frame x00 x03; frame x00 x04;
   frame x00 x05; frame x00 x06; frame x00 x07; frame x00 x08;
   frame x00 x09; frame x00 x0a; frame x00 x0b; frame x00 x0c;
   frame x00 x0d].

(** The signature's defaults with another frame length and idle output. *)
Definition args_frame (samples : Z) (idle : bool) : Args :=
  {| arg_sample_rate := 16000;
     arg_sample_width := 2;
     arg_samples_per_frame := samples;
     arg_start_frame_num_thresh := 5;
     arg_start_frame_rollback := 10;
     arg_end_frame_num_thresh := 30;
     arg_output_idle_frame := idle |}.

(** [samples_per_frame=-160] *)
Definition webrtc_negative : StreamingVAD nat :=
  returned (__init__ (args_frame (-160) false) webrtc_unit) eq_refl.

(** [output_idle_frame=True], as in [demo.py]. *)
Definition webrtc_idle_output : StreamingVAD nat :=
  returned (__init__ (args_frame 160 true) webrtc_unit) eq_refl.

(** [start_frame_rollback=2] *)
Definition webrtc_rollback2 : StreamingVAD nat :=
  returned (__init__ (args_with 5 2 30) webrtc_unit) eq_refl.

(** Streams whose frames all have the size of the concrete engines. *)
Ltac valid_frames :=
  repeat (apply Forall_cons; [vm_compute; reflexivity|]); apply Forall_nil.

(** ** Lists of frames *)

Lemma len_app {A : Type} (l1 l2 : list A) : len (l1 ++ l2) = len l1 + len l2.
Proof. unfold len. rewrite length_app. lia. Qed.

Lemma len_nonneg {A : Type} (l : list A) : 0 <= len l.
Proof. unfold len. lia. Qed.

Lemma len_cons {A : Type} (x : A) (l : list A) : len (x :: l) = len l + 1.
Proof. unfold len. cbn [length]. lia. Qed.

Lemma len_nil {A : Type} : len (@nil A) = 0.
Proof. reflexivity. Qed.

#[local] Hint Rewrite @len_app @len_cons @len_nil : len.

Lemma len_join (size : Z) (frames : list bytes) :
  Forall (fun f => len f = size) frames ->
  len (join frames) = len frames * size.
Proof.
  induction 1 as [|f fs Hf _ IH]; [reflexivity|].
  unfold join in *. cbn [concat]. rewrite len_app, IH, Hf, len_cons. ring.
Qed.

(** ** The invariant *)

Section Proofs.

Context {M : Type} {INF : Inference M}.
Implicit Types (s self : StreamingVAD M) (audio_data : bytes).

(** In a well-formed object a full window has the size the unit asserts. *)
Lemma window_size s audio_data :
  wf s ->
  len audio_data = actual_frame_size_in_bytes s ->
  len (vad_unit_frame_buffer s ++ [audio_data]) = vad_unit_frame_ratio s ->
  len (join (vad_unit_frame_buffer s ++ [audio_data]))
  = _actual_frame_size_in_bytes (vad_unit s).
Proof.
  intros W Ha Hfull.
  rewrite (len_join (actual_frame_size_in_bytes s)).
  - rewrite Hfull, (wf_unit s W), <- (wf_width s W), <- (wf_ratio s W),
      (wf_frame_size s W). ring.
  - apply Forall_app. split; [apply (wf_pending s W)|]. constructor; auto.
Qed.

Lemma process_wf self audio_data :
  wf self -> wf (snd (process audio_data self)).
Proof.
  intros W. pose proof (window_size self audio_data W) as Hwin.
  destruct W as [H1 H2 H3 H4 H5 H6 H7 H8 H9].
  py_cases; to_Z; try absurd_path.
  all: constructor; py_fields; auto; try congruence; try lia.
  all: try solve [apply Forall_app; split; auto].
  all: len_simpl; lia.
Qed.

Lemma reset_wf self : wf self -> wf (snd (reset self)).
Proof.
  intros [H1 H2 H3 H4 H5 H6 H7 H8 H9].
  py_unfold. constructor; py_fields; auto; try lia.
Qed.

Lemma reset_blank self : blank (snd (reset self)).
Proof. py_unfold. constructor; reflexivity. Qed.

Lemma constructed_size (u : VADUnit M) :
  constructed u ->
  _actual_frame_size_in_bytes u = _sample_width u * _samples_per_frame u.
Proof.
  intros [vad sr sw spf u' H|net]; [|reflexivity].
  unfold VADUnitWebRTC_init in H. revert H.
  py_cases; intros H; try discriminate.
  injection H as <-. reflexivity.
Qed.

Lemma init_fields (a : Args) (u : VADUnit M) s :
  __init__ a u = Ok s ->
  s = {| sample_rate := arg_sample_rate a;
         sample_width := arg_sample_width a;
         samples_per_frame := arg_samples_per_frame a;
         start_frame_num_thresh := arg_start_frame_num_thresh a;
         start_frame_rollback := arg_start_frame_rollback a;
         end_frame_num_thresh := arg_end_frame_num_thresh a;
         output_idle_frame := arg_output_idle_frame a;
         vad_unit := u;
         actual_frame_size_in_bytes :=
           arg_sample_width a * arg_samples_per_frame a;
         vad_unit_frame_ratio :=
           _samples_per_frame u / arg_samples_per_frame a;
         vad_unit_frame_buffer := [];
         prev_vad_unit_result := false;
         vad_unit_result_count := 0;
         vad_state := Idle;
         vad_result_buffer := [];
         vad_unit_count := None |}
  /\ arg_sample_rate a = _sample_rate u
  /\ arg_sample_width a = _sample_width u
  /\ arg_samples_per_frame a <= _samples_per_frame u
  /\ arg_samples_per_frame a <> 0
  /\ _samples_per_frame u mod arg_samples_per_frame a = 0.
Proof.
  unfold __init__. py_cases; intros H; try discriminate.
  injection H as <-. to_Z. auto 10.
Qed.

Lemma fresh_wf s : fresh s -> wf s.
Proof.
  intros [a u s' Hu Hinit].
  apply init_fields in Hinit as (-> & _ & Hw & _ & Hnz & Hmod).
  constructor; py_fields; auto; try lia; try discriminate.
  - rewrite Z.mul_comm. symmetry. apply Z_div_exact_full_2; auto.
  - apply constructed_size; auto.
Qed.

Lemma fresh_blank s : fresh s -> blank s.
Proof.
  intros [a u s' Hu Hinit].
  apply init_fields in Hinit as (-> & _).
  constructor; reflexivity.
Qed.

Lemma reachable_wf s0 s : fresh s0 -> reachable s0 s -> wf s.
Proof.
  intros H0. induction 1; auto using fresh_wf, process_wf, reset_wf.
Qed.

(** From a well-formed object a frame of the right size is always answered
    by an event. *)
Lemma process_returns self audio_data :
  wf self -> valid_frame self audio_data ->
  exists ev, fst (process audio_data self) = Ok ev.
Proof.
  intros W Hv. pose proof (window_size self audio_data W) as Hwin.
  unfold valid_frame in Hv. rewrite <- (wf_frame_size self W) in Hv.
  destruct W as [H1 H2 H3 H4 H5 H6 H7 H8 H9].
  py_cases; to_Z; try absurd_path; try solve [eexists; reflexivity].
  all: destruct H7; congruence.
Qed.


(** ** Single calls *)

Lemma process_all_cons audio_data (rest : list bytes) self :
  process_all (audio_data :: rest) self
  = match process audio_data self with
    | (Ok vad_data, s1) =>
        match process_all rest s1 with
        | (Ok more, s2) => (Ok (vad_data :: more), s2)
        | (Raise e, s2) => (Raise e, s2)
        end
    | (Raise e, s1) => (Raise e, s1)
    end.
Proof.
  cbn [process_all]. unfold bind at 1.
  destruct (process audio_data self) as [[vad_data|e] s1]; [|reflexivity].
  unfold bind, ret. destruct (process_all rest s1) as [[more|e] s2]; reflexivity.
Qed.

Lemma process_keeps_config self audio_data :
  same_config (snd (process audio_data self)) self.
Proof. py_cases; constructor; reflexivity. Qed.

Lemma reset_keeps_config self : same_config (snd (reset self)) self.
Proof. py_unfold. constructor; reflexivity. Qed.

Lemma same_config_refl s : same_config s s.
Proof. constructor; reflexivity. Qed.

Lemma same_config_trans s1 s2 s3 :
  same_config s1 s2 -> same_config s2 s3 -> same_config s1 s3.
Proof. intros [] []. constructor; congruence. Qed.

Lemma reachable_config s0 s : reachable s0 s -> same_config s s0.
Proof.
  induction 1;
    eauto using same_config_refl, same_config_trans, process_keeps_config,
      reset_keeps_config.
Qed.

Lemma valid_frame_config s1 s2 audio_data :
  same_config s1 s2 -> valid_frame s2 audio_data -> valid_frame s1 audio_data.
Proof. intros [] H. unfold valid_frame in *. congruence. Qed.

(** A frame of another size is refused before anything is touched. *)
Lemma process_invalid_frame self audio_data :
  len audio_data <> actual_frame_size_in_bytes self ->
  process audio_data self = (Raise (AssertionError DataSizeInvalid), self).
Proof.
  intros H. apply Z.eqb_neq in H. py_unfold. rewrite H. reflexivity.
Qed.

(** The classification part of a successful call, lines 135-144. *)
Lemma process_classifies self audio_data ev s' :
  process audio_data self = (Ok ev, s') ->
  let pending := vad_unit_frame_buffer self ++ [audio_data] in
  (len pending = vad_unit_frame_ratio self ->
   infer (model (vad_unit self)) (join pending)
   = (prev_vad_unit_result s', model (vad_unit s'))
   /\ vad_unit_frame_buffer s' = [])
  /\ (len pending <> vad_unit_frame_ratio self ->
      prev_vad_unit_result s' = prev_vad_unit_result self
      /\ vad_unit s' = vad_unit self
      /\ vad_unit_frame_buffer s' = pending).
Proof.
  intros H. py_inv H.
  all: split; intros Hp; try contradiction; auto.
Qed.

(** The counter of a successful call follows the classification the call
    used, lines 153-157 and 167-171. *)
Lemma process_counts self audio_data ev s' :
  process audio_data self = (Ok ev, s') ->
  vad_unit_result_count s'
  = match vad_state self with
    | Idle =>
        if prev_vad_unit_result s' then vad_unit_result_count self + 1 else 0
    | _ =>
        if prev_vad_unit_result s' then 0 else vad_unit_result_count self + 1
    end.
Proof. intros H. py_inv H; try reflexivity; congruence. Qed.

(** ** Runs *)

Lemma process_all_returns s (frames : list bytes) :
  wf s -> Forall (valid_frame s) frames ->
  exists evs s',
    process_all frames s = (Ok evs, s') /\ length evs = length frames.
Proof.
  intros W Hv. revert s W Hv.
  induction frames as [|audio_data rest IH]; intros s W Hv.
  - exists [], s. split; reflexivity.
  - inversion Hv as [|? ? Ha Hrest]; subst.
    destruct (process_returns s audio_data W Ha) as [ev Hev].
    pose proof (process_wf s audio_data W) as W1.
    pose proof (process_keeps_config s audio_data) as C1.
    rewrite process_all_cons.
    destruct (process audio_data s) as [r s1]. cbn [fst snd] in *. subst r.
    destruct (IH s1 W1) as (evs & s2 & Hrun & Hlen).
    + eapply Forall_impl; [|exact Hrest].
      intros f Hf. eapply valid_frame_config; eauto.
    + rewrite Hrun. exists (ev :: evs), s2. split; [reflexivity|].
      cbn [length]. congruence.
Qed.

Lemma process_all_length (frames : list bytes) s evs s' :
  process_all frames s = (Ok evs, s') -> length evs = length frames.
Proof.
  revert s evs. induction frames as [|audio_data rest IH]; intros s evs H.
  - inversion H. reflexivity.
  - rewrite process_all_cons in H.
    destruct (process audio_data s) as [[ev|e] s1]; [|discriminate].
    destruct (process_all rest s1) as [[more|e] s2] eqn:E; [|discriminate].
    inversion H; subst. cbn [length]. f_equal. eauto.
Qed.

(** ** Events, frame sizes and classification *)

(** C3. From any reachable state of an engine, a sequence of N frames of the
    configured size is answered by exactly N events, no call raising, and
    each event is tagged Idle, Started, Continue or Ended. *)
Theorem C3_one_event_per_frame s0 s (frames : list bytes) :
  fresh s0 -> reachable s0 s ->
  Forall (valid_frame s) frames ->
  exists evs s',
    process_all frames s = (Ok evs, s')
    /\ length evs = length frames
    /\ Forall (fun ev => In (state ev) [Idle; Started; Continue; Ended]) evs.
Proof.
  intros H0 Hr Hv.
  destruct (process_all_returns s frames (reachable_wf s0 s H0 Hr) Hv)
    as (evs & s' & Hrun & Hlen).
  exists evs, s'. repeat split; auto.
  apply Forall_forall. intros ev _. cbn [In].
  destruct (state ev); auto.
Qed.

(** C8. [process] raises the frame-size assertion exactly when the length of
    the input differs from [sample_width * samples_per_frame]; the object is
    then left as it was; a frame of that size is answered by an event. *)
Theorem C8_frame_size_assertion s0 s audio_data :
  fresh s0 -> reachable s0 s ->
  (fst (process audio_data s) = Raise (AssertionError DataSizeInvalid)
   <-> len audio_data <> sample_width s * samples_per_frame s)
  /\ (len audio_data <> sample_width s * samples_per_frame s ->
      snd (process audio_data s) = s)
  /\ (len audio_data = sample_width s * samples_per_frame s ->
      exists ev, fst (process audio_data s) = Ok ev).
Proof.
  intros H0 Hr. pose proof (reachable_wf s0 s H0 Hr) as W.
  pose proof (wf_frame_size s W) as Hsize.
  assert (Hbad : len audio_data <> sample_width s * samples_per_frame s ->
                 process audio_data s
                 = (Raise (AssertionError DataSizeInvalid), s)).
  { intros Hne. apply process_invalid_frame. congruence. }
  assert (Hgood : len audio_data = sample_width s * samples_per_frame s ->
                  exists ev, fst (process audio_data s) = Ok ev).
  { intros He. apply process_returns; auto. }
  repeat split.
  - intros Hraise Heq. destruct (Hgood Heq) as [ev Hev]. congruence.
  - intros Hne. rewrite (Hbad Hne). reflexivity.
  - intros Hne. rewrite (Hbad Hne). reflexivity.
  - exact Hgood.
Qed.

(** C5 (amended). In resting state Idle, when the count of consecutive
    positive classifications is more than one below [start_frame_num_thresh],
    one more frame, however it is classified, is answered by an Idle event
    and the engine stays Idle. *)
Theorem C5_no_start_below_threshold s0 s audio_data :
  fresh s0 -> reachable s0 s ->
  vad_state s = Idle ->
  vad_unit_result_count s + 1 < start_frame_num_thresh s ->
  valid_frame s audio_data ->
  exists payload s',
    process audio_data s = (Ok {| state := Idle; data := payload |}, s')
    /\ vad_state s' = Idle.
Proof.
  intros H0 Hr Hidle Hlow Hv. pose proof (reachable_wf s0 s H0 Hr) as W.
  destruct (process_returns s audio_data W Hv) as [ev Hev].
  pose proof (wf_count s W) as Hc.
  destruct (process audio_data s) as [r s'] eqn:E. cbn [fst] in Hev. subst r.
  py_inv E; try congruence; try lia.
  all: eexists; eexists; split; [reflexivity|]; py_fields; auto.
Qed.

(** From a [start_frame_rollback] of 1 on, every call made in resting state
    Continue is answered by a Continue or an Ended event whose payload is
    exactly the frame just submitted, and leaves the output buffer empty. *)
Lemma continue_payload_from_rollback_1 s0 s audio_data :
  fresh s0 -> reachable s0 s ->
  vad_state s = Continue ->
  valid_frame s audio_data ->
  1 <= start_frame_rollback s ->
  exists tag s',
    process audio_data s = (Ok {| state := tag; data := [audio_data] |}, s')
    /\ (tag = Continue \/ tag = Ended)
    /\ vad_result_buffer s' = [].
Proof.
  intros H0 Hr Hcont Hv Hroll. pose proof (reachable_wf s0 s H0 Hr) as W.
  destruct (process_returns s audio_data W Hv) as [ev Hev].
  pose proof (wf_output s W Hcont) as Hout.
  destruct (process audio_data s) as [r s'] eqn:E. cbn [fst] in Hev. subst r.
  py_inv E; try congruence.
  all: rewrite Hout in *; cbn [app] in *.
  all: try match goal with
         | H : [_] = _ :: _ |- _ => inversion H; subst; clear H
         end.
  all: try solve [exfalso; len_simpl; lia].
  all: eexists; eexists; split; [reflexivity|]; auto.
Qed.

(** C6. The classifier input buffer takes the frames in arrival order.  The
    call that brings it to [vad_unit_frame_ratio] frames asks the unit once,
    about the concatenation of the buffered frames, takes the answer as the
    classification of the frame and empties the buffer; any other call leaves
    the unit untouched, takes the previous classification, which a new object
    holds as false, and keeps the frame waiting, fewer than the ratio being
    then in the buffer.  The counter is updated with that classification. *)
Theorem C6_window_classification s0 s audio_data :
  fresh s0 -> reachable s0 s ->
  valid_frame s audio_data ->
  prev_vad_unit_result s0 = false
  /\ vad_unit_frame_buffer s0 = []
  /\ exists ev s',
      process audio_data s = (Ok ev, s')
      /\ let pending := vad_unit_frame_buffer s ++ [audio_data] in
         (len pending = vad_unit_frame_ratio s ->
          infer (model (vad_unit s)) (join pending)
          = (prev_vad_unit_result s', model (vad_unit s'))
          /\ vad_unit_frame_buffer s' = [])
         /\ (len pending <> vad_unit_frame_ratio s ->
             prev_vad_unit_result s' = prev_vad_unit_result s
             /\ vad_unit s' = vad_unit s
             /\ vad_unit_frame_buffer s' = pending
             /\ (0 < vad_unit_frame_ratio s ->
                 len pending < vad_unit_frame_ratio s))
         /\ vad_unit_result_count s'
            = match vad_state s with
              | Idle =>
                  if prev_vad_unit_result s'
                  then vad_unit_result_count s + 1 else 0
              | _ =>
                  if prev_vad_unit_result s'
                  then 0 else vad_unit_result_count s + 1
              end.
Proof.
  intros H0 Hr Hv. pose proof (reachable_wf s0 s H0 Hr) as W.
  destruct (fresh_blank s0 H0) as [Hb1 Hb2 _ _ _].
  split; [exact Hb2|]. split; [exact Hb1|].
  destruct (process_returns s audio_data W Hv) as [ev Hev].
  destruct (process audio_data s) as [r s'] eqn:E. cbn [fst] in Hev. subst r.
  exists ev, s'. split; [reflexivity|].
  destruct (process_classifies s audio_data ev s' E) as [Hfull Hpart].
  cbv zeta. split; [exact Hfull|]. split.
  - intros Hne. destruct (Hpart Hne) as (Hp & Hu & Hb).
    repeat split; auto. intros Hpos.
    pose proof (wf_short s W Hpos). len_simpl. lia.
  - exact (process_counts s audio_data ev s' E).
Qed.

Lemma windows_cons (ratio : Z) (pending : list bytes) audio_data rest :
  windows ratio pending (audio_data :: rest)
  = if len (pending ++ [audio_data]) =? ratio
    then join (pending ++ [audio_data]) :: windows ratio [] rest
    else windows ratio (pending ++ [audio_data]) rest.
Proof. reflexivity. Qed.

(** Over a stream the unit is asked about the windows of the stream, in
    order, and about nothing else. *)
Lemma run_asks_windows (frames : list bytes) :
  forall s evs s',
    process_all frames s = (Ok evs, s') ->
    model (vad_unit s')
    = after_windows (model (vad_unit s))
        (windows (vad_unit_frame_ratio s) (vad_unit_frame_buffer s) frames).
Proof.
  induction frames as [|audio_data rest IH]; intros s evs s' Hrun.
  - inversion Hrun. reflexivity.
  - rewrite process_all_cons in Hrun.
    destruct (process audio_data s) as [[ev|e] s1] eqn:E1; [|discriminate].
    destruct (process_all rest s1) as [[more|e] s2] eqn:E2; [|discriminate].
    inversion Hrun; subst.
    pose proof (process_keeps_config s audio_data) as K.
    rewrite E1 in K. cbn [snd] in K.
    destruct (process_classifies s audio_data ev s1 E1) as [Hfull Hpart].
    rewrite (IH s1 more s' E2), (same_ratio _ _ K), windows_cons.
    destruct (len (vad_unit_frame_buffer s ++ [audio_data])
              =? vad_unit_frame_ratio s) eqn:Hlen.
    + apply Z.eqb_eq in Hlen. destruct (Hfull Hlen) as [Hinfer Hbuf].
      rewrite Hbuf. cbn [after_windows]. rewrite Hinfer. reflexivity.
    + apply Z.eqb_neq in Hlen. destruct (Hpart Hlen) as (_ & Hunit & Hbuf).
      rewrite Hbuf, Hunit. reflexivity.
Qed.

(** ** Rollback and the first window *)

(** One call in resting state Idle, lines 146-166: the rollback buffer takes
    the frame and keeps at most [start_frame_rollback] frames; a Started
    event carries the whole buffer, an Idle event leaves it in place. *)
Lemma process_idle_rollback self audio_data ev s' :
  process audio_data self = (Ok ev, s') ->
  vad_state self = Idle ->
  0 <= start_frame_rollback self ->
  len (vad_result_buffer self) <= start_frame_rollback self ->
  let kept :=
    Z.min (start_frame_rollback self) (len (vad_result_buffer self) + 1) in
  (state ev = Started -> len (data ev) = kept)
  /\ (state ev = Idle ->
      vad_state s' = Idle /\ len (vad_result_buffer s') = kept).
Proof.
  intros H Hidle Hroll Hlen. py_inv H; try congruence.
  all: cbv zeta; split; intros Htag; try discriminate Htag.
  all: try match goal with
         | H : _ ++ [_] = _ :: _ |- _ =>
             apply (f_equal len) in H
         end.
  all: len_simpl; try split; auto; lia.
Qed.

Lemma idle_run_rollback (frames : list bytes) :
  forall s idles ev s',
    process_all frames s = (Ok (idles ++ [ev]), s') ->
    vad_state s = Idle ->
    0 <= start_frame_rollback s ->
    len (vad_result_buffer s) <= start_frame_rollback s ->
    Forall (fun e => state e = Idle) idles ->
    state ev = Started ->
    len (data ev)
    = Z.min (start_frame_rollback s) (len (vad_result_buffer s) + len frames).
Proof.
  induction frames as [|audio_data rest IH];
    intros s idles ev s' Hrun Hidle Hroll Hlen Hidles Hev.
  - inversion Hrun as [[Hnil Hs]]. destruct idles; discriminate Hnil.
  - rewrite process_all_cons in Hrun.
    destruct (process audio_data s) as [[e1|x] s1] eqn:E1; [|discriminate].
    destruct (process_all rest s1) as [[more|x] s2] eqn:E2; [|discriminate].
    inversion Hrun as [[Hevs Hs]]. subst s2.
    destruct (process_idle_rollback s audio_data e1 s1 E1 Hidle Hroll Hlen)
      as [Hstart Hstay].
    pose proof (process_keeps_config s audio_data) as C.
    rewrite E1 in C. cbn [snd] in C. destruct C.
    destruct idles as [|i idles'].
    + cbn [app] in Hevs. inversion Hevs; subst.
      apply process_all_length in E2. destruct rest; [|discriminate E2].
      rewrite (Hstart Hev). len_simpl. lia.
    + cbn [app] in Hevs. inversion Hevs; subst.
      inversion Hidles as [|? ? Hi Hrest]; subst.
      destruct (Hstay Hi) as [Hidle1 Hlen1].
      pose proof (len_nonneg rest) as Hnn.
      cbv zeta in Hlen1.
      rewrite (IH s1 idles' ev s' E2 Hidle1) by (auto; lia).
      len_simpl. lia.
Qed.

(** C4 (amended).  With [start_frame_rollback >= 0]: when a new engine
    answers every frame but the last with an Idle event and the last with
    Started, the Started event carries
    [min(start_frame_rollback, number of frames processed)] frames. *)
Theorem C4_rollback_length s0 (frames : list bytes) idles ev s' :
  fresh s0 ->
  0 <= start_frame_rollback s0 ->
  process_all frames s0 = (Ok (idles ++ [ev]), s') ->
  Forall (fun e => state e = Idle) idles ->
  state ev = Started ->
  len (data ev) = Z.min (start_frame_rollback s0) (len frames).
Proof.
  intros H0 Hroll Hrun Hidles Hev.
  destruct (fresh_blank s0 H0) as [_ _ _ Hidle Hout].
  rewrite (idle_run_rollback frames s0 idles ev s' Hrun); auto.
  - rewrite Hout. len_simpl. reflexivity.
  - rewrite Hout. len_simpl. lia.
Qed.

(** One call that neither fills the classifier input buffer nor finds a
    positive classification carried over. *)
Lemma process_waiting self audio_data :
  wf self -> valid_frame self audio_data ->
  vad_state self = Idle ->
  prev_vad_unit_result self = false ->
  1 <= start_frame_num_thresh self ->
  len (vad_unit_frame_buffer self) + 1 < vad_unit_frame_ratio self ->
  exists payload s',
    process audio_data self = (Ok {| state := Idle; data := payload |}, s')
    /\ vad_state s' = Idle
    /\ prev_vad_unit_result s' = false
    /\ vad_unit_result_count s' = 0
    /\ vad_unit s' = vad_unit self
    /\ vad_unit_frame_buffer s' = vad_unit_frame_buffer self ++ [audio_data].
Proof.
  intros W Hv Hidle Hprev Hth Hroom.
  destruct (process_returns self audio_data W Hv) as [ev Hev].
  destruct (process audio_data self) as [r s'] eqn:E. cbn [fst] in Hev.
  subst r. py_inv E; try congruence; len_simpl; try lia.
  all: eexists; eexists; split; [reflexivity|]; py_fields; auto.
Qed.

Lemma waiting_run (frames : list bytes) :
  forall s,
    wf s -> Forall (valid_frame s) frames ->
    vad_state s = Idle ->
    prev_vad_unit_result s = false ->
    vad_unit_result_count s = 0 ->
    1 <= start_frame_num_thresh s ->
    len (vad_unit_frame_buffer s) + len frames < vad_unit_frame_ratio s ->
    exists evs s',
      process_all frames s = (Ok evs, s')
      /\ Forall (fun ev => state ev = Idle) evs
      /\ vad_unit_result_count s' = 0
      /\ prev_vad_unit_result s' = false
      /\ vad_unit s' = vad_unit s.
Proof.
  induction frames as [|audio_data rest IH];
    intros s W Hv Hidle Hprev Hcount Hth Hroom.
  - exists [], s. repeat split; auto.
  - inversion Hv as [|? ? Ha Hrest]; subst. len_simpl.
    pose proof (len_nonneg rest) as Hnn.
    destruct (process_waiting s audio_data W Ha Hidle Hprev Hth)
      as (payload & s1 & E1 & Hidle1 & Hprev1 & Hcount1 & Hunit1 & Hbuf1);
      [lia|].
    pose proof (process_wf s audio_data W) as W1.
    pose proof (process_keeps_config s audio_data) as C.
    rewrite E1 in W1, C. cbn [snd] in W1, C.
    destruct (IH s1 W1) as (evs & s2 & E2 & Htags & Hc2 & Hp2 & Hu2); auto.
    + eapply Forall_impl; [|exact Hrest].
      intros f Hf. eapply valid_frame_config; eauto.
    + destruct C. lia.
    + destruct C. rewrite Hbuf1. len_simpl. lia.
    + rewrite process_all_cons, E1, E2.
      eexists; eexists; split; [reflexivity|].
      repeat split; auto; congruence.
Qed.

(** C10 (amended).  With [start_frame_num_thresh >= 1]: on an engine just
    constructed or just reset, each of the first [vad_unit_frame_ratio - 1]
    calls is answered by an Idle event, without asking the unit; the
    classification stays false and the count stays 0. *)
Theorem C10_before_first_window s0 s s1 (frames : list bytes) :
  fresh s0 -> reachable s0 s ->
  s1 = s0 \/ s1 = snd (reset s) ->
  1 <= start_frame_num_thresh s1 ->
  Forall (valid_frame s1) frames ->
  len frames <= vad_unit_frame_ratio s1 - 1 ->
  exists evs s',
    process_all frames s1 = (Ok evs, s')
    /\ Forall (fun ev => state ev = Idle) evs
    /\ vad_unit_result_count s' = 0
    /\ prev_vad_unit_result s' = false
    /\ vad_unit s' = vad_unit s1.
Proof.
  intros H0 Hr Hs1 Hth Hv Hlen.
  assert (W1 : wf s1).
  { destruct Hs1; subst s1.
    - apply fresh_wf; auto.
    - apply reset_wf. eapply reachable_wf; eauto. }
  assert (B1 : blank s1).
  { destruct Hs1; subst s1; auto using fresh_blank, reset_blank. }
  destruct B1 as [Hbuf Hprev Hcount Hidle _].
  apply waiting_run; auto.
  rewrite Hbuf. len_simpl. lia.
Qed.

(** ** Reset *)

(** Two objects that agree on everything but the library object answer a
    frame alike as long as the library does. *)
Lemma process_same s1 s2 audio_data :
  same_engine s1 s2 ->
  ((len (vad_unit_frame_buffer s1 ++ [audio_data]) =? vad_unit_frame_ratio s1)
   = true ->
   fst (infer (model (vad_unit s1))
          (join (vad_unit_frame_buffer s1 ++ [audio_data])))
   = fst (infer (model (vad_unit s2))
            (join (vad_unit_frame_buffer s2 ++ [audio_data])))) ->
  fst (process audio_data s1) = fst (process audio_data s2)
  /\ same_engine (snd (process audio_data s1)) (snd (process audio_data s2)).
Proof.
  intros Hsame Hans.
  destruct s1 as [a1 a2 a3 a4 a5 a6 a7 [u1 u2 u3 u4 m1] a9 a10 a11 a12 a13 a14
                    a15 a16].
  destruct s2 as [b1 b2 b3 b4 b5 b6 b7 [v1 v2 v3 v4 m2] b9 b10 b11 b12 b13 b14
                    b15 b16].
  destruct Hsame as [[C1 C2 C3 C4 C5 C6 C7 C8 C9 C10 C11 C12 C13] E1 E2 E3 E4 E5].
  py_fields. subst. py_unfold. py_fields.
  repeat (first
    [ match goal with
      | |- context [infer m1 ?w] =>
          specialize (Hans eq_refl);
          destruct (infer m1 w) as [r1 m1'];
          destruct (infer m2 w) as [r2 m2'];
          cbn [fst] in Hans; subst r2
      end
    | break_match ]; py_fields).
  all: split; [reflexivity|].
  all: constructor; [constructor|..]; py_fields; auto.
Qed.

Lemma same_run (frames : list bytes) :
  forall s1 s2,
    same_engine s1 s2 ->
    answers (model (vad_unit s1))
      (windows (vad_unit_frame_ratio s1) (vad_unit_frame_buffer s1) frames)
    = answers (model (vad_unit s2))
        (windows (vad_unit_frame_ratio s2) (vad_unit_frame_buffer s2) frames) ->
    fst (process_all frames s1) = fst (process_all frames s2).
Proof.
  induction frames as [|audio_data rest IH]; intros s1 s2 Hsame Hans.
  - reflexivity.
  - pose proof (same_ratio _ _ (same_cfg _ _ Hsame)) as Hratio.
    pose proof (same_pending _ _ Hsame) as Hpending.
    rewrite !windows_cons, <- Hratio, <- Hpending in Hans.
    pose proof (process_keeps_config s1 audio_data) as K1.
    pose proof (process_keeps_config s2 audio_data) as K2.
    pose proof (process_classifies s1 audio_data) as P1.
    pose proof (process_classifies s2 audio_data) as P2.
    rewrite <- Hpending, <- Hratio in P2.
    destruct (process_same s1 s2 audio_data Hsame) as [Hfst Hnext].
    { intros Hfull. rewrite Hfull in Hans. cbn [answers] in Hans.
      rewrite <- Hpending.
      destruct (infer (model (vad_unit s1))); destruct (infer (model (vad_unit s2))).
      cbn [fst]. congruence. }
    rewrite !process_all_cons.
    destruct (process audio_data s1) as [r1 t1].
    destruct (process audio_data s2) as [r2 t2].
    cbn [fst snd] in *. subst r2.
    destruct r1 as [ev|e]; [|reflexivity].
    specialize (P1 ev t1 eq_refl). specialize (P2 ev t2 eq_refl).
    cbv zeta in P1, P2. destruct P1 as [F1 N1], P2 as [F2 N2].
    assert (Hrest : fst (process_all rest t1) = fst (process_all rest t2)).
    { apply IH; [exact Hnext|].
      rewrite (same_ratio _ _ K1), (same_ratio _ _ K2), <- Hratio.
      destruct (len (vad_unit_frame_buffer s1 ++ [audio_data])
                =? vad_unit_frame_ratio s1) eqn:Hfull.
      - apply Z.eqb_eq in Hfull.
        destruct (F1 Hfull) as [I1 B1], (F2 Hfull) as [I2 B2].
        cbn [answers] in Hans. rewrite I1, I2 in Hans.
        rewrite B1, B2. congruence.
      - apply Z.eqb_neq in Hfull.
        destruct (N1 Hfull) as (_ & U1 & B1), (N2 Hfull) as (_ & U2 & B2).
        rewrite U1, U2, B1, B2. exact Hans. }
    destruct (process_all rest t1) as [q1 z1].
    destruct (process_all rest t2) as [q2 z2].
    cbn [fst] in Hrest. subst q2. destruct q1; reflexivity.
Qed.

(** C7.  After [reset], in whatever state the engine was, a sequence of
    frames is answered by the same events, or raises the same exception, as
    on the engine as it was constructed, provided the unit gives the same
    answers on the windows of these frames. *)
Theorem C7_reset_as_new s0 s (frames : list bytes) :
  fresh s0 -> reachable s0 s ->
  answers (model (vad_unit s)) (windows (vad_unit_frame_ratio s0) [] frames)
  = answers (model (vad_unit s0)) (windows (vad_unit_frame_ratio s0) [] frames) ->
  fst (process_all frames (snd (reset s))) = fst (process_all frames s0).
Proof.
  intros H0 Hr Hans.
  destruct (fresh_blank s0 H0) as [B1 B2 B3 B4 B5].
  destruct (reset_blank s) as [R1 R2 R3 R4 R5].
  pose proof (same_config_trans _ _ _ (reset_keeps_config s)
                (reachable_config s0 s Hr)) as C.
  apply same_run.
  - constructor; auto; congruence.
  - rewrite R1, B1, (same_ratio _ _ C). exact Hans.
Qed.

Lemma reachable_run s0 s (frames : list bytes) :
  reachable s0 s -> reachable s0 (snd (process_all frames s)).
Proof.
  revert s. induction frames as [|audio_data rest IH]; intros s Hr.
  - exact Hr.
  - rewrite process_all_cons.
    pose proof (reach_process s0 s audio_data Hr) as H1.
    destruct (process audio_data s) as [[ev|e] s1]; cbn [snd] in *; auto.
    specialize (IH s1 H1).
    destruct (process_all rest s1) as [[more|e] s2]; exact IH.
Qed.

(** On a Started or an Ended event the counter is left where the threshold
    found it, and the zero goes to [vad_unit_count] (lines 158-162 and
    172-176). *)
Lemma transition_keeps_count self audio_data ev s' :
  process audio_data self = (Ok ev, s') ->
  (state ev = Started ->
   start_frame_num_thresh self <= vad_unit_result_count s'
   /\ vad_unit_count s' = Some 0 /\ vad_state s' = Continue)
  /\ (state ev = Ended ->
      end_frame_num_thresh self <= vad_unit_result_count s'
      /\ vad_unit_count s' = Some 0 /\ vad_state s' = Idle).
Proof.
  intros H. py_inv H.
  all: split; intros Htag; try discriminate Htag; auto.
Qed.

End Proofs.

(** ** Runs of the concrete engines *)

Lemma webrtc_unit_constructed : constructed webrtc_unit.
Proof. apply (constructed_webrtc 0%nat 16000 2 160). reflexivity. Qed.

Lemma fresh_webrtc (a : Args) s : __init__ a webrtc_unit = Ok s -> fresh s.
Proof. apply fresh_init, webrtc_unit_constructed. Qed.

Lemma fresh_silero (a : Args) s : __init__ a silero_unit = Ok s -> fresh s.
Proof. apply fresh_init, constructed_silero. Qed.

Lemma fresh_webrtc_default : fresh webrtc_default.
Proof. apply (fresh_webrtc default_args). reflexivity. Qed.

Lemma fresh_silero_default : fresh silero_default.
Proof. apply (fresh_silero default_args). reflexivity. Qed.

Lemma reachable_after s0 (frames : list bytes) : reachable s0 (after frames s0).
Proof. apply reachable_run, reach_fresh. Qed.

(** C1 (the code departs from the claim).  The default engine over the WebRTC
    unit, fed five speech frames and then silence: the fifth frame is answered
    by Started and leaves the counter at 5, not 0; the Ended event, which
    comes on the twenty-fifth silent frame, leaves it at 30, not 0.  The zero
    is in the attribute [vad_unit_count]. *)
Theorem C1_counter_not_reset :
  let started := after (repeat speech 5) webrtc_default in
  let ended := after (repeat silence 25) started in
  fst (process speech (after (repeat speech 4) webrtc_default))
  = Ok {| state := Started; data := repeat speech 5 |}
  /\ vad_state started = Continue
  /\ vad_unit_result_count started = 5
  /\ vad_unit_count started = Some 0
  /\ fst (process silence (after (repeat silence 24) started))
     = Ok {| state := Ended; data := [silence] |}
  /\ vad_state ended = Idle
  /\ vad_unit_result_count ended = 30
  /\ vad_unit_count ended = Some 0.
Proof. evaluate. Qed.

(** C2 (the code departs from the claim).  The default engine over the WebRTC
    unit, right after the Started event of five speech frames, fed thirty
    silent frames: twenty-four Continue events, each with its frame, then
    Ended on the twenty-fifth frame, then Idle events; the twenty-fifth to
    twenty-ninth frames are not answered by Continue, nor the thirtieth by
    Ended. *)
Theorem C2_ended_on_25th_silent_frame :
  let started := after (repeat speech 5) webrtc_default in
  fst (process speech (after (repeat speech 4) webrtc_default))
  = Ok {| state := Started; data := repeat speech 5 |}
  /\ vad_state started = Continue
  /\ fst (process_all (repeat silence 30) started)
     = Ok (repeat {| state := Continue; data := [silence] |} 24
           ++ [{| state := Ended; data := [silence] |}]
           ++ repeat {| state := Idle; data := [] |} 5)
  /\ vad_state (after (repeat silence 25) started) = Idle.
Proof. evaluate. Qed.

(** C3, at three frames fed to the default engine in resting state
    Continue. *)
Lemma C3_witness :
  exists evs s',
    process_all [silence; speech; speech] (after (repeat speech 5) webrtc_default)
    = (Ok evs, s')
    /\ length evs = length [silence; speech; speech]
    /\ Forall (fun ev => In (state ev) [Idle; Started; Continue; Ended]) evs.
Proof.
  apply (C3_one_event_per_frame webrtc_default).
  - exact fresh_webrtc_default.
  - apply reachable_after.
  - repeat (apply Forall_cons; [vm_compute; reflexivity|]). apply Forall_nil.
Defined.

(** C4, at the default engine fed four silent frames and five speech frames:
    the Started event carries min(10, 9) = 9 frames. *)
Lemma C4_witness :
  len (data {| state := Started; data := repeat silence 4 ++ repeat speech 5 |})
  = Z.min (start_frame_rollback webrtc_default)
      (len (repeat silence 4 ++ repeat speech 5)).
Proof.
  apply (C4_rollback_length webrtc_default
           (repeat silence 4 ++ repeat speech 5)
           (repeat {| state := Idle; data := [] |} 8)
           {| state := Started; data := repeat silence 4 ++ repeat speech 5 |}
           (after (repeat silence 4 ++ repeat speech 5) webrtc_default)).
  - exact fresh_webrtc_default.
  - vm_compute. discriminate.
  - vm_compute. reflexivity.
  - repeat (apply Forall_cons; [reflexivity|]). apply Forall_nil.
  - reflexivity.
Defined.

(** C4 fails for a negative [start_frame_rollback]: with -1 every frame is
    dropped from the buffer at once, the Started event of five speech frames
    carries no frame, and min(-1, 5) is -1. *)
Lemma C4_counterexample :
  start_frame_rollback webrtc_rollback_neg = -1
  /\ process_all (repeat speech 5) webrtc_rollback_neg
     = (Ok (repeat {| state := Idle; data := [] |} 4
            ++ [{| state := Started; data := [] |}]),
        after (repeat speech 5) webrtc_rollback_neg)
  /\ len (data {| state := Started; data := [] |})
     <> Z.min (start_frame_rollback webrtc_rollback_neg) (len (repeat speech 5)).
Proof.
  split; [reflexivity|]. split; [vm_compute; reflexivity|].
  vm_compute. discriminate.
Qed.

(** C5, at the default engine after one silent frame: a speech frame is
    answered by Idle. *)
Lemma C5_witness :
  exists payload s',
    process speech (after [silence] webrtc_default)
    = (Ok {| state := Idle; data := payload |}, s')
    /\ vad_state s' = Idle.
Proof.
  apply (C5_no_start_below_threshold webrtc_default).
  - exact fresh_webrtc_default.
  - apply reachable_after.
  - vm_compute. reflexivity.
  - vm_compute. reflexivity.
  - vm_compute. reflexivity.
Defined.

(** C5 fails as stated when [start_frame_num_thresh] is 1: after a silent
    frame the engine is Idle with count 0, below the threshold, and one
    speech frame is answered by Started. *)
Lemma C5_counterexample :
  let s := after [silence] webrtc_thresh1 in
  fst (process silence webrtc_thresh1) = Ok {| state := Idle; data := [] |}
  /\ vad_state s = Idle
  /\ prev_vad_unit_result s = false
  /\ vad_unit_result_count s = 0
  /\ start_frame_num_thresh s = 1
  /\ fst (process speech s) = Ok {| state := Started; data := [silence; speech] |}
  /\ prev_vad_unit_result (snd (process speech s)) = true
  /\ vad_state (snd (process speech s)) = Continue.
Proof. evaluate. Qed.

(** C6, at the default engine over the Silero unit with three frames
    waiting: the fourth frame fills the window. *)
Lemma C6_witness :
  let s0 := silero_default in
  let s := after (repeat speech 3) silero_default in
  let audio_data := speech in
  prev_vad_unit_result s0 = false
  /\ vad_unit_frame_buffer s0 = []
  /\ exists ev s',
      process audio_data s = (Ok ev, s')
      /\ let pending := vad_unit_frame_buffer s ++ [audio_data] in
         (len pending = vad_unit_frame_ratio s ->
          infer (model (vad_unit s)) (join pending)
          = (prev_vad_unit_result s', model (vad_unit s'))
          /\ vad_unit_frame_buffer s' = [])
         /\ (len pending <> vad_unit_frame_ratio s ->
             prev_vad_unit_result s' = prev_vad_unit_result s
             /\ vad_unit s' = vad_unit s
             /\ vad_unit_frame_buffer s' = pending
             /\ (0 < vad_unit_frame_ratio s ->
                 len pending < vad_unit_frame_ratio s))
         /\ vad_unit_result_count s'
            = match vad_state s with
              | Idle =>
                  if prev_vad_unit_result s'
                  then vad_unit_result_count s + 1 else 0
              | _ =>
                  if prev_vad_unit_result s'
                  then 0 else vad_unit_result_count s + 1
              end.
Proof.
  apply (C6_window_classification silero_default
           (after (repeat speech 3) silero_default) speech).
  - exact fresh_silero_default.
  - apply reachable_after.
  - vm_compute. reflexivity.
Defined.

(** C7, at the default engine over the Silero unit, reset in the middle of a
    segment and of a window. *)
Lemma C7_witness :
  fst (process_all (repeat silence 4 ++ repeat speech 9)
         (snd (reset (after (repeat speech 14) silero_default))))
  = fst (process_all (repeat silence 4 ++ repeat speech 9) silero_default).
Proof.
  apply C7_reset_as_new.
  - exact fresh_silero_default.
  - apply reachable_after.
  - vm_compute. reflexivity.
Defined.

(** C8, at a frame of two bytes. *)
Lemma C8_witness :
  let s := after [speech] webrtc_default in
  let audio_data := [x00; x01] in
  (fst (process audio_data s) = Raise (AssertionError DataSizeInvalid)
   <-> len audio_data <> sample_width s * samples_per_frame s)
  /\ (len audio_data <> sample_width s * samples_per_frame s ->
      snd (process audio_data s) = s)
  /\ (len audio_data = sample_width s * samples_per_frame s ->
      exists ev, fst (process audio_data s) = Ok ev).
Proof.
  apply (C8_frame_size_assertion webrtc_default).
  - exact fresh_webrtc_default.
  - apply reachable_after.
Defined.

(** The default engine right after Started: the next frame comes back in its
    event. *)
Lemma continue_payload_after_started :
  exists tag s',
    process silence (after (repeat speech 5) webrtc_default)
    = (Ok {| state := tag; data := [silence] |}, s')
    /\ (tag = Continue \/ tag = Ended)
    /\ vad_result_buffer s' = [].
Proof.
  apply (continue_payload_from_rollback_1 webrtc_default).
  - exact fresh_webrtc_default.
  - apply reachable_after.
  - vm_compute. reflexivity.
  - vm_compute. reflexivity.
  - vm_compute. discriminate.
Qed.

(** C9 (the code departs from the claim).  The engine with
    [start_frame_rollback=0] over the WebRTC unit, resting Continue after
    five speech frames: lines 148-149 take the frame just submitted out of
    the buffer again before the event is built, so the Continue event of the
    next frame, and the Ended event of the twenty-fifth silent frame, carry
    no frame, where the claim, [demo.py] (line 78) and the docstring of
    [VADData] have one. *)
Theorem C9_empty_payload_at_rollback_0 :
  let s := after (repeat speech 5) webrtc_rollback0 in
  start_frame_rollback s = 0
  /\ vad_state s = Continue
  /\ vad_result_buffer s = []
  /\ fst (process speech s) = Ok {| state := Continue; data := [] |}
  /\ fst (process silence (after (repeat silence 24) s))
     = Ok {| state := Ended; data := [] |}.
Proof. evaluate. Qed.

(** C10, at the default engine over the Silero unit, reset after nine
    frames: the next three frames. *)
Lemma C10_witness :
  exists evs s',
    process_all (repeat speech 3)
      (snd (reset (after (repeat speech 9) silero_default)))
    = (Ok evs, s')
    /\ Forall (fun ev => state ev = Idle) evs
    /\ vad_unit_result_count s' = 0
    /\ prev_vad_unit_result s' = false
    /\ vad_unit s' = vad_unit (snd (reset (after (repeat speech 9) silero_default))).
Proof.
  apply (C10_before_first_window silero_default
           (after (repeat speech 9) silero_default)).
  - exact fresh_silero_default.
  - apply reachable_after.
  - right. reflexivity.
  - vm_compute. discriminate.
  - repeat (apply Forall_cons; [vm_compute; reflexivity|]). apply Forall_nil.
  - vm_compute. discriminate.
Defined.

(** C10 fails when [start_frame_num_thresh] is 0: the first call on a new
    engine, made before any window is complete, is answered by Started. *)
Lemma C10_counterexample :
  start_frame_num_thresh silero_thresh0 = 0
  /\ vad_unit_frame_ratio silero_thresh0 = 4
  /\ fst (process silence silero_thresh0)
     = Ok {| state := Started; data := [silence] |}
  /\ prev_vad_unit_result (snd (process silence silero_thresh0)) = false
  /\ vad_unit (snd (process silence silero_thresh0)) = vad_unit silero_thresh0.
Proof. evaluate. Qed.

(** ** The constructors *)

Section Constructors.

Context {M : Type} {INF : Inference M}.
Implicit Types (s self : StreamingVAD M) (audio_data : bytes).

(** X1.  The constructor returns an engine exactly when the sample rate and
    the sample width are those of the unit, the frame is not longer than the
    unit's window, is not of length zero, and divides the window. *)
Theorem X1_init_returns_iff (a : Args) (u : VADUnit M) :
  (exists s, __init__ a u = Ok s)
  <-> arg_sample_rate a = _sample_rate u
      /\ arg_sample_width a = _sample_width u
      /\ arg_samples_per_frame a <= _samples_per_frame u
      /\ arg_samples_per_frame a <> 0
      /\ _samples_per_frame u mod arg_samples_per_frame a = 0.
Proof.
  split.
  - intros [s H]. apply init_fields in H. tauto.
  - intros (H1 & H2 & H3 & H4 & H5).
    apply Z.eqb_eq in H1, H2, H5. apply Z.leb_le in H3. apply Z.eqb_neq in H4.
    unfold __init__. py_unfold. rewrite H1, H2, H3, H4, H5. cbn [fst].
    eexists. reflexivity.
Qed.

(** X2.  A frame length of zero samples is refused by neither assertion: when
    rate and width agree and the unit's window is not negative, the remainder
    of line 101 raises ZeroDivisionError. *)
Theorem X2_init_zero_samples (a : Args) (u : VADUnit M) :
  arg_sample_rate a = _sample_rate u ->
  arg_sample_width a = _sample_width u ->
  0 <= _samples_per_frame u ->
  arg_samples_per_frame a = 0 ->
  __init__ a u = Raise ZeroDivisionError.
Proof.
  intros H1 H2 H3 H4.
  apply Z.eqb_eq in H1, H2. rewrite <- H4 in H3. apply Z.leb_le in H3.
  unfold __init__. py_unfold. rewrite H1, H2, H3, H4. reflexivity.
Qed.

Lemma Z_in_spec (x : Z) (l : list Z) : Z_in x l = true <-> In x l.
Proof.
  unfold Z_in. rewrite existsb_exists. split.
  - intros (y & Hy & He). apply Z.eqb_eq in He. congruence.
  - intros Hx. exists x. split; [exact Hx|apply Z.eqb_refl].
Qed.

Lemma div_eq_iff (x y q : Z) :
  0 < y -> (x / y = q <-> q * y <= x < (q + 1) * y).
Proof.
  intros Hy. split.
  - intros <-. pose proof (Z.mul_div_le x y Hy).
    pose proof (Z.mul_succ_div_gt x y Hy). lia.
  - intros H. symmetry. apply (Z.div_unique x y q (x - q * y)); lia.
Qed.

(** X3.  [VADUnitWebRTC.__init__] returns a unit exactly when the sample rate
    is 8000, 16000, 32000 or 48000, the sample width is 2 and the window,
    rounded down to whole milliseconds, lasts 10, 20 or 30 ms; the window
    need not be a whole number of milliseconds. *)
Theorem X3_webrtc_init_returns_iff (vad : M) (rate width samples : Z) :
  (exists u, VADUnitWebRTC_init vad rate width samples = Ok u)
  <-> In rate [8000; 16000; 32000; 48000]
      /\ width = 2
      /\ (10 * rate <= 1000 * samples < 11 * rate
          \/ 20 * rate <= 1000 * samples < 21 * rate
          \/ 30 * rate <= 1000 * samples < 31 * rate).
Proof.
  pose proof Z_in_spec as Hin.
  unfold VADUnitWebRTC_init. py_unfold. py_fields.
  destruct (Z_in rate [8000; 16000; 32000; 48000]) eqn:Hrate.
  2:{ split; [intros [u H]; discriminate H|].
      intros (H & _). apply Hin in H. congruence. }
  apply Hin in Hrate.
  assert (Hpos : 0 < rate) by (cbn [In] in Hrate; lia).
  destruct (Z_in width [2]) eqn:Hwidth.
  2:{ split; [intros [u H]; discriminate H|].
      intros (_ & H & _). subst width. discriminate Hwidth. }
  apply Hin in Hwidth.
  replace (rate =? 0) with false by (symmetry; apply Z.eqb_neq; lia).
  destruct (Z_in (1000 * samples / rate) [10; 20; 30]) eqn:Hms.
  - apply Hin in Hms. split; [|intros _; eexists; reflexivity].
    intros _. split; [exact Hrate|]. split; [cbn [In] in Hwidth; lia|].
    cbn [In] in Hms.
    destruct Hms as [Hms|[Hms|[Hms|[]]]]; symmetry in Hms;
      apply div_eq_iff in Hms; lia.
  - split; [intros [u H]; discriminate H|].
    intros (_ & _ & H). exfalso.
    assert (In (1000 * samples / rate) [10; 20; 30]) as Hc.
    { cbn [In].
      destruct H as [H|[H|H]];
        [left|right; left|right; right; left]; symmetry;
        apply div_eq_iff; lia. }
    apply Hin in Hc. congruence.
Qed.

Lemma constructed_width (u : VADUnit M) :
  constructed u ->
  _sample_width u = 2 /\ In (_sample_rate u) [8000; 16000; 32000; 48000].
Proof.
  intros [vad rate width samples u' H|net].
  - revert H. unfold VADUnitWebRTC_init. py_cases; intros H; try discriminate H.
    injection H as <-. py_fields.
    repeat match goal with
      | H : Z_in _ _ = true |- _ => apply Z_in_spec in H
      end.
    cbn [In] in *. split; [lia|tauto].
  - cbn. auto.
Qed.

End Constructors.

(** ** Formats and bounds *)

Section Streams.

Context {M : Type} {INF : Inference M}.
Implicit Types (s self : StreamingVAD M) (audio_data : bytes).

(** Engines are built for 16-bit samples only: both units insist on them. *)
Lemma fresh_width s0 s :
  fresh s0 -> reachable s0 s ->
  sample_width s = 2
  /\ In (sample_rate s) [8000; 16000; 32000; 48000]
  /\ actual_frame_size_in_bytes s = 2 * samples_per_frame s
  /\ samples_per_frame s <= _samples_per_frame (vad_unit s).
Proof.
  intros H0 Hr. pose proof (reachable_wf s0 s H0 Hr) as W.
  destruct (reachable_config s0 s Hr) as [C1 C2 C3 _ _ _ _ C8 C9 C10 _ _ _].
  destruct H0 as [a u s0 Hu Hinit].
  apply init_fields in Hinit as (-> & Hrate & Hwidth & Hle & _).
  destruct (constructed_width u Hu) as [Hw2 Hr2].
  py_fields. rewrite (wf_frame_size s W), C1, C2, C3, C10.
  repeat split; congruence || lia.
Qed.

(** X4.  Whatever the arguments, an engine that has been constructed works
    on 16-bit samples at 8, 16, 32 or 48 kHz, and the frames it accepts have
    twice [samples_per_frame] bytes. *)
Theorem X4_engine_sample_format s0 s audio_data :
  fresh s0 -> reachable s0 s ->
  sample_width s = 2
  /\ In (sample_rate s) [8000; 16000; 32000; 48000]
  /\ (is_ok (fst (process audio_data s)) = true <->
      len audio_data = 2 * samples_per_frame s).
Proof.
  intros H0 Hr. destruct (fresh_width s0 s H0 Hr) as (Hw & Hrate & Hsize & _).
  pose proof (reachable_wf s0 s H0 Hr) as W.
  repeat split; auto.
  - intros Hok.
    destruct (Z.eq_dec (len audio_data) (actual_frame_size_in_bytes s)) as [E|E];
      [congruence|].
    rewrite (process_invalid_frame s audio_data E) in Hok. discriminate Hok.
  - intros Hlen.
    destruct (process_returns s audio_data W) as [ev Hev].
    + unfold valid_frame. rewrite Hw. exact Hlen.
    + rewrite Hev. reflexivity.
Qed.

(** X5.  A negative [samples_per_frame] that divides the unit's window passes
    the constructor; the engine then refuses every input, as no input has a
    negative length. *)
Theorem X5_negative_frame_length s0 s audio_data :
  fresh s0 -> reachable s0 s ->
  samples_per_frame s0 < 0 ->
  process audio_data s = (Raise (AssertionError DataSizeInvalid), s).
Proof.
  intros H0 Hr Hneg. destruct (fresh_width s0 s H0 Hr) as (_ & _ & Hsize & _).
  pose proof (same_samples_per_frame _ _ (reachable_config s0 s Hr)) as Hspf.
  apply process_invalid_frame. pose proof (len_nonneg audio_data). lia.
Qed.

(** X6.  With a positive [samples_per_frame], a window is a whole number of
    frames, at least one, and between calls fewer frames than a window are
    waiting for the unit. *)
Theorem X6_pending_below_ratio s0 s :
  fresh s0 -> reachable s0 s ->
  0 < samples_per_frame s0 ->
  1 <= vad_unit_frame_ratio s
  /\ vad_unit_frame_ratio s * samples_per_frame s
     = _samples_per_frame (vad_unit s)
  /\ len (vad_unit_frame_buffer s) < vad_unit_frame_ratio s.
Proof.
  intros H0 Hr Hpos. pose proof (reachable_wf s0 s H0 Hr) as W.
  destruct (fresh_width s0 s H0 Hr) as (_ & _ & _ & Hle).
  pose proof (same_samples_per_frame _ _ (reachable_config s0 s Hr)) as Hspf.
  pose proof (wf_ratio s W) as Hratio.
  assert (Hone : 1 <= vad_unit_frame_ratio s) by nia.
  repeat split; auto. apply (wf_short s W). lia.
Qed.

Lemma process_rollback_bound self audio_data :
  len (vad_result_buffer self) <= Z.max 0 (start_frame_rollback self) ->
  len (vad_result_buffer (snd (process audio_data self)))
  <= Z.max 0 (start_frame_rollback self).
Proof.
  intros H. py_cases; to_Z; auto; len_simpl; try lia.
  all: match goal with
       | E : _ ++ [_] = _ :: _ |- _ => apply (f_equal len) in E
       end; len_simpl; lia.
Qed.

Lemma reachable_rollback_bound s0 s :
  fresh s0 -> reachable s0 s ->
  len (vad_result_buffer s) <= Z.max 0 (start_frame_rollback s).
Proof.
  intros H0. induction 1 as [|s audio_data Hr IH|s Hr IH].
  - destruct (fresh_blank s0 H0) as [_ _ _ _ Hout]. rewrite Hout. cbn. lia.
  - rewrite (same_rollback _ _ (process_keeps_config s audio_data)).
    apply process_rollback_bound, IH.
  - py_unfold. py_fields. cbn. lia.
Qed.

(** X7.  Between calls the output buffer never holds more than
    [start_frame_rollback] frames, and none at all when that is negative. *)
Theorem X7_rollback_buffer_bounded s0 s :
  fresh s0 -> reachable s0 s ->
  len (vad_result_buffer s) <= Z.max 0 (start_frame_rollback s0).
Proof.
  intros H0 Hr. rewrite <- (same_rollback _ _ (reachable_config s0 s Hr)).
  apply reachable_rollback_bound with (s0 := s0); auto.
Qed.

Lemma process_tag_after self audio_data ev s' :
  process audio_data self = (Ok ev, s') ->
  tag_after (vad_state self) (state ev) = Some (vad_state s').
Proof. intros H. py_inv H; cbn [tag_after]; congruence. Qed.

(** X8.  The tags of the events of a stream follow the resting state: Idle
    events and then Started while resting Idle, Continue events and then
    Ended while resting Continue; so Started and Ended alternate, and no
    Idle event comes between a Started and the next Ended. *)
Theorem X8_event_tags_alternate (frames : list bytes) s evs s' :
  process_all frames s = (Ok evs, s') ->
  tags_after (vad_state s) (map state evs) = Some (vad_state s').
Proof.
  revert s evs. induction frames as [|audio_data rest IH]; intros s evs Hrun.
  - inversion Hrun. reflexivity.
  - rewrite process_all_cons in Hrun.
    destruct (process audio_data s) as [[ev|e] s1] eqn:E1; [|discriminate].
    destruct (process_all rest s1) as [[more|e] s2] eqn:E2; [|discriminate].
    inversion Hrun; subst. cbn [map tags_after].
    rewrite (process_tag_after s audio_data ev s1 E1). eauto.
Qed.

(** ** Payloads *)

Lemma lastn_all {A : Type} (n : nat) (l : list A) :
  (length l <= n)%nat -> lastn n l = l.
Proof.
  intros H. unfold lastn. replace (length l - n)%nat with 0%nat by lia.
  reflexivity.
Qed.

Lemma length_lastn {A : Type} (n : nat) (l : list A) :
  (length (lastn n l) <= n)%nat.
Proof. unfold lastn. rewrite length_skipn. lia. Qed.

Lemma lastn_app_lastn {A : Type} (n : nat) (l r : list A) :
  lastn n (lastn n l ++ r) = lastn n (l ++ r).
Proof.
  destruct (Nat.le_gt_cases (length l) n) as [Hle|Hgt].
  - rewrite (lastn_all n l Hle). reflexivity.
  - unfold lastn. rewrite !length_app, length_skipn, !skipn_app, skipn_skipn,
      length_skipn.
    f_equal; f_equal; lia.
Qed.

(** One call in resting state Idle, lines 146-166, by what is in the
    buffer. *)
Lemma process_idle_buffer self audio_data ev s' :
  process audio_data self = (Ok ev, s') ->
  vad_state self = Idle ->
  let buffer := vad_result_buffer self ++ [audio_data] in
  let full := len buffer >? start_frame_rollback self in
  let kept := if full then tl buffer else buffer in
  (state ev = Started -> data ev = kept /\ vad_result_buffer s' = [])
  /\ (state ev = Idle ->
      vad_state s' = Idle
      /\ vad_result_buffer s' = kept
      /\ data ev
         = if output_idle_frame self
           then if full then firstn 1 buffer else []
           else []).
Proof.
  intros H Hidle. cbv zeta. py_inv H; try congruence.
  all: cbn [tl firstn].
  all: split; intros Htag; try discriminate Htag; auto.
  all: try absurd_path.
Qed.

Lemma idle_kept_lastn (rollback : Z) (buffer : list bytes) audio_data :
  0 <= rollback -> len buffer <= rollback ->
  (if len (buffer ++ [audio_data]) >? rollback
   then tl (buffer ++ [audio_data]) else buffer ++ [audio_data])
  = lastn (Z.to_nat rollback) (buffer ++ [audio_data]).
Proof.
  intros H0 Hle. unfold lastn, len in *. rewrite length_app in *.
  cbn [length] in *.
  destruct (Z.of_nat (length buffer + 1) >? rollback) eqn:E; to_Z.
  - replace (length buffer + 1 - Z.to_nat rollback)%nat with 1%nat by lia.
    destruct (buffer ++ [audio_data]); reflexivity.
  - replace (length buffer + 1 - Z.to_nat rollback)%nat with 0%nat by lia.
    reflexivity.
Qed.

Lemma idle_run_content (frames : list bytes) :
  forall s idles ev s',
    process_all frames s = (Ok (idles ++ [ev]), s') ->
    vad_state s = Idle ->
    0 <= start_frame_rollback s ->
    len (vad_result_buffer s) <= start_frame_rollback s ->
    Forall (fun e => state e = Idle) idles ->
    state ev = Started ->
    data ev
    = lastn (Z.to_nat (start_frame_rollback s)) (vad_result_buffer s ++ frames).
Proof.
  induction frames as [|audio_data rest IH];
    intros s idles ev s' Hrun Hidle Hroll Hlen Hidles Hev.
  - inversion Hrun as [[Hnil Hs]]. destruct idles; discriminate Hnil.
  - rewrite process_all_cons in Hrun.
    destruct (process audio_data s) as [[e1|x] s1] eqn:E1; [|discriminate].
    destruct (process_all rest s1) as [[more|x] s2] eqn:E2; [|discriminate].
    inversion Hrun as [[Hevs Hs]]. subst s2.
    destruct (process_idle_buffer s audio_data e1 s1 E1 Hidle)
      as [Hstart Hstay].
    cbv zeta in Hstart, Hstay.
    rewrite (idle_kept_lastn _ _ _ Hroll Hlen) in Hstart, Hstay.
    pose proof (same_rollback _ _ (process_keeps_config s audio_data)) as C.
    rewrite E1 in C. cbn [snd] in C.
    destruct idles as [|i idles'].
    + cbn [app] in Hevs. inversion Hevs; subst.
      apply process_all_length in E2. destruct rest; [|discriminate E2].
      apply Hstart, Hev.
    + cbn [app] in Hevs. inversion Hevs; subst.
      inversion Hidles as [|? ? Hi Hrest]; subst.
      destruct (Hstay Hi) as (Hidle1 & Hbuf1 & _).
      rewrite (IH s1 idles' ev s' E2 Hidle1); auto; try lia.
      * rewrite C, Hbuf1, lastn_app_lastn, <- app_assoc. reflexivity.
      * rewrite C, Hbuf1. unfold len.
        pose proof (length_lastn (Z.to_nat (start_frame_rollback s))
                      (vad_result_buffer s ++ [audio_data])).
        lia.
Qed.

(** X9.  With [start_frame_rollback >= 0], a Started event that ends a run
    of Idle events carries the last [start_frame_rollback] frames of what
    was in the buffer followed by the frames of the run, in arrival order and
    up to the frame just submitted; all of them when they are fewer. *)
Theorem X9_started_payload_is_recent_frames s0 s (frames : list bytes)
    idles ev s' :
  fresh s0 -> reachable s0 s ->
  vad_state s = Idle ->
  0 <= start_frame_rollback s ->
  process_all frames s = (Ok (idles ++ [ev]), s') ->
  Forall (fun e => state e = Idle) idles ->
  state ev = Started ->
  data ev
  = lastn (Z.to_nat (start_frame_rollback s)) (vad_result_buffer s ++ frames).
Proof.
  intros H0 Hr Hidle Hroll Hrun Hidles Hev.
  pose proof (reachable_rollback_bound s0 s H0 Hr) as Hb.
  apply (idle_run_content frames s idles ev s'); auto. lia.
Qed.

(** X10.  With [output_idle_frame] false no Idle event of a stream carries a
    frame; with it true an Idle event carries at most one. *)
Theorem X10_idle_payload (frames : list bytes) s evs s' :
  process_all frames s = (Ok evs, s') ->
  Forall (fun ev =>
            state ev = Idle ->
            len (data ev) <= 1
            /\ (output_idle_frame s = false -> data ev = [])) evs.
Proof.
  revert s evs. induction frames as [|audio_data rest IH]; intros s evs Hrun.
  - inversion Hrun. constructor.
  - rewrite process_all_cons in Hrun.
    destruct (process audio_data s) as [[ev|e] s1] eqn:E1; [|discriminate].
    destruct (process_all rest s1) as [[more|e] s2] eqn:E2; [|discriminate].
    inversion Hrun; subst.
    pose proof (same_output_idle _ _ (process_keeps_config s audio_data)) as C.
    rewrite E1 in C. cbn [snd] in C.
    constructor; [|rewrite <- C; eauto].
    intros Htag. pose proof (process_tag_after s audio_data ev s1 E1) as Ht.
    rewrite Htag in Ht.
    assert (Hidle : vad_state s = Idle)
      by (destruct (vad_state s); cbn in Ht; congruence).
    destruct (process_idle_buffer s audio_data ev s1 E1 Hidle) as [_ Hstay].
    destruct (Hstay Htag) as (_ & _ & ->).
    destruct (output_idle_frame s).
    + split; [|discriminate].
      destruct (_ >? start_frame_rollback s); [|cbn; lia].
      destruct (vad_result_buffer s ++ [audio_data]); cbn; lia.
    + split; [cbn; lia|reflexivity].
Qed.

(** X11.  With [output_idle_frame] true nothing is lost while the engine
    rests Idle: the frames carried by the Idle events of a run, followed by
    the frames left in the buffer, are the frames the buffer held followed by
    the frames of the run, in order. *)
Theorem X11_idle_output_keeps_frames (frames : list bytes) s evs s' :
  process_all frames s = (Ok evs, s') ->
  vad_state s = Idle ->
  output_idle_frame s = true ->
  Forall (fun ev => state ev = Idle) evs ->
  concat (map data evs) ++ vad_result_buffer s'
  = vad_result_buffer s ++ frames.
Proof.
  revert s evs. induction frames as [|audio_data rest IH];
    intros s evs Hrun Hidle Hflag Htags.
  - inversion Hrun. subst. cbn. rewrite app_nil_r. reflexivity.
  - rewrite process_all_cons in Hrun.
    destruct (process audio_data s) as [[ev|e] s1] eqn:E1; [|discriminate].
    destruct (process_all rest s1) as [[more|e] s2] eqn:E2; [|discriminate].
    inversion Hrun; subst.
    inversion Htags as [|? ? Htag Hrest]; subst.
    pose proof (same_output_idle _ _ (process_keeps_config s audio_data)) as C.
    rewrite E1 in C. cbn [snd] in C.
    destruct (process_idle_buffer s audio_data ev s1 E1 Hidle) as [_ Hstay].
    destruct (Hstay Htag) as (Hidle1 & Hbuf1 & Hdata).
    cbn [map concat]. rewrite <- app_assoc, (IH s1 more E2); auto; try congruence.
    rewrite Hbuf1, Hdata, Hflag.
    replace (vad_result_buffer s ++ audio_data :: rest)
      with ((vad_result_buffer s ++ [audio_data]) ++ rest)
      by (rewrite <- app_assoc; reflexivity).
    rewrite app_assoc. f_equal.
    destruct (_ >? start_frame_rollback s).
    + destruct (vad_result_buffer s ++ [audio_data]) eqn:Hb; reflexivity.
    + reflexivity.
Qed.


Lemma process_frame_sizes self audio_data :
  Forall (fun f => len f = actual_frame_size_in_bytes self)
    (vad_result_buffer self) ->
  Forall (fun f => len f = actual_frame_size_in_bytes self)
    (vad_result_buffer (snd (process audio_data self)))
  /\ forall ev,
      fst (process audio_data self) = Ok ev ->
      Forall (fun f => len f = actual_frame_size_in_bytes self) (data ev).
Proof.
  intros Hbuf.
  assert (Hnew : len audio_data = actual_frame_size_in_bytes self ->
                 Forall (fun f => len f = actual_frame_size_in_bytes self)
                   (vad_result_buffer self ++ [audio_data])).
  { intros Ha. apply Forall_app. split; [exact Hbuf|]. constructor; auto. }
  py_cases; to_Z; specialize (Hnew ltac:(assumption)) || clear Hnew.
  all: try match goal with
         | E : _ ++ [_] = _ |- _ => rewrite E in Hnew
         end.
  all: try match goal with
         | H : Forall _ (_ :: _) |- _ => inversion H; subst; clear H
         end.
  all: split; [auto|intros ev Hev; try discriminate Hev;
                    inversion Hev; subst; cbn [data app]; auto].
Qed.

Lemma reachable_frame_sizes s0 s :
  fresh s0 -> reachable s0 s ->
  Forall (fun f => len f = actual_frame_size_in_bytes s) (vad_result_buffer s).
Proof.
  intros H0. induction 1 as [|s audio_data Hr IH|s Hr IH].
  - destruct (fresh_blank s0 H0) as [_ _ _ _ Hout]. rewrite Hout. constructor.
  - rewrite (same_frame_size _ _ (process_keeps_config s audio_data)).
    apply process_frame_sizes, IH.
  - py_unfold. py_fields. constructor.
Qed.

(** X13.  Every frame an event carries has the configured size,
    [sample_width * samples_per_frame] bytes. *)
Theorem X13_payload_frame_sizes s0 s (frames : list bytes) evs s' :
  fresh s0 -> reachable s0 s ->
  process_all frames s = (Ok evs, s') ->
  Forall (fun ev =>
            Forall (fun f => len f = sample_width s0 * samples_per_frame s0)
              (data ev)) evs.
Proof.
  intros H0 Hr. revert s Hr evs.
  induction frames as [|audio_data rest IH]; intros s Hr evs Hrun.
  - inversion Hrun. constructor.
  - rewrite process_all_cons in Hrun.
    destruct (process audio_data s) as [[ev|e] s1] eqn:E1; [|discriminate].
    destruct (process_all rest s1) as [[more|e] s2] eqn:E2; [|discriminate].
    inversion Hrun; subst.
    pose proof (reach_process s0 s audio_data Hr) as Hr1.
    rewrite E1 in Hr1. cbn [snd] in Hr1.
    constructor; [|exact (IH s1 Hr1 more E2)].
    pose proof (reachable_config s0 s Hr) as C.
    rewrite <- (same_sample_width _ _ C), <- (same_samples_per_frame _ _ C),
      <- (wf_frame_size s (reachable_wf s0 s H0 Hr)).
    destruct (process_frame_sizes s audio_data
                (reachable_frame_sizes s0 s H0 Hr)) as [_ Hev].
    apply Hev. rewrite E1. reflexivity.
Qed.

(** ** Hysteresis *)

Lemma classifications_step self audio_data (rest : list bytes) ev s' :
  process audio_data self = (Ok ev, s') ->
  classifications (vad_unit_frame_ratio self) (model (vad_unit self))
    (prev_vad_unit_result self) (vad_unit_frame_buffer self)
    (audio_data :: rest)
  = prev_vad_unit_result s'
    :: classifications (vad_unit_frame_ratio s') (model (vad_unit s'))
         (prev_vad_unit_result s') (vad_unit_frame_buffer s') rest.
Proof.
  intros H.
  pose proof (same_ratio _ _ (process_keeps_config self audio_data)) as C.
  rewrite H in C. cbn [snd] in C.
  destruct (process_classifies self audio_data ev s' H) as [Hfull Hpart].
  cbv zeta in Hfull, Hpart. cbn [classifications]. rewrite C.
  destruct (len (vad_unit_frame_buffer self ++ [audio_data])
            =? vad_unit_frame_ratio self) eqn:E; to_Z.
  - destruct (Hfull E) as [-> ->]. reflexivity.
  - destruct (Hpart E) as (-> & -> & ->). reflexivity.
Qed.

(** The tag of an event, by the counter the call leaves (lines 158, 172). *)
Lemma process_tag self audio_data ev s' :
  process audio_data self = (Ok ev, s') ->
  state ev
  = match vad_state self with
    | Idle =>
        if vad_unit_result_count s' >=? start_frame_num_thresh self
        then Started else Idle
    | _ =>
        if vad_unit_result_count s' >=? end_frame_num_thresh self
        then Ended else Continue
    end.
Proof.
  intros H. py_inv H; try reflexivity; try congruence; exfalso; lia.
Qed.

Lemma process_keeps_config_at self audio_data r s1 :
  process audio_data self = (r, s1) -> same_config s1 self.
Proof.
  intros H. pose proof (process_keeps_config self audio_data) as C.
  rewrite H in C. exact C.
Qed.

(** A run of frames classified [speech] that is as long as the counter is
    short of the threshold: the tags and the resting state it gives. *)
Lemma threshold_run (resting : VADState) (speech : bool) (quiet loud : VADState)
    (threshold : StreamingVAD M -> Z) (frames : list bytes) :
  (resting = Idle /\ speech = true /\ quiet = Idle /\ loud = Started
   /\ threshold = start_frame_num_thresh)
  \/ (resting = Continue /\ speech = false /\ quiet = Continue /\ loud = Ended
      /\ threshold = end_frame_num_thresh) ->
  forall s,
    wf s -> vad_state s = resting ->
    Forall (valid_frame s) frames ->
    classifications (vad_unit_frame_ratio s) (model (vad_unit s))
      (prev_vad_unit_result s) (vad_unit_frame_buffer s) frames
    = repeat speech (length frames) ->
    frames <> [] ->
    len frames = threshold s - vad_unit_result_count s ->
    exists evs s',
      process_all frames s = (Ok evs, s')
      /\ map state evs = repeat quiet (length frames - 1) ++ [loud]
      /\ tag_after resting loud = Some (vad_state s').
Proof.
  intros [(->&->&->&->&->)|(->&->&->&->&->)].
  all: induction frames as [|audio_data rest IH];
    intros s W Hrest Hv Hclass Hne Hlen; [contradiction|].
  all: inversion Hv as [|? ? Ha Hvrest]; subst.
  all: destruct (process_returns s audio_data W Ha) as [ev Hev].
  all: pose proof (process_wf s audio_data W) as W1.
  all: pose proof (process_keeps_config s audio_data) as C.
  all: destruct (process audio_data s) as [r s1] eqn:E1; cbn [fst snd] in *;
    subst r.
  all: rewrite (classifications_step s audio_data rest ev s1 E1) in Hclass.
  all: cbn [length repeat] in Hclass; injection Hclass as Hprev Hclass.
  all: pose proof (process_counts s audio_data ev s1 E1) as Hcount.
  all: pose proof (process_tag s audio_data ev s1 E1) as Htag.
  all: pose proof (process_tag_after s audio_data ev s1 E1) as Hafter.
  all: rewrite Hprev, Hrest in Hcount; rewrite Hrest in Htag, Hafter.
  all: len_simpl; rewrite process_all_cons, E1.
  all: destruct C as [_ _ _ Cstart _ Cend _ _ _ _ _ _ _].
  all: destruct rest as [|b rest'].
  all: try (exists [ev], s1; split; [reflexivity|];
            cbn [map length repeat app];
            change (len (@nil bytes)) with 0 in Hlen;
            replace (vad_unit_result_count s1 >=? _) with true in Htag
              by (symmetry; rewrite Z.geb_leb; apply Z.leb_le; lia);
            rewrite Htag in *; auto; fail).
  all: len_simpl; pose proof (len_nonneg rest').
  all: replace (vad_unit_result_count s1 >=? _) with false in Htag
         by (symmetry; rewrite Z.geb_leb; apply Z.leb_gt; lia).
  all: rewrite Htag in Hafter; cbn [tag_after] in Hafter;
    injection Hafter as Hs1; symmetry in Hs1.
  all: destruct (IH s1 W1 Hs1) as (evs & s2 & Hrun & Htags & Hfinal);
    [ eapply Forall_impl; [|exact Hvrest];
      intros f Hf; eapply valid_frame_config; eauto;
      eapply process_keeps_config_at; eauto
    | exact Hclass
    | discriminate
    | len_simpl; lia
    | ].
  all: rewrite Hrun; exists (ev :: evs), s2; split; [reflexivity|].
  all: split; [|exact Hfinal].
  all: cbn [map]; rewrite Htags, Htag; cbn [length Nat.sub repeat app];
    rewrite ?Nat.sub_0_r; reflexivity.
Qed.

(** X14.  Resting Idle with the counter [k >= 1] below
    [start_frame_num_thresh], [k] frames in a row classified speech are
    answered by [k - 1] Idle events and then Started, and the engine rests
    Continue. *)
Theorem X14_started_when_count_reaches_threshold s0 s (frames : list bytes) :
  fresh s0 -> reachable s0 s ->
  vad_state s = Idle ->
  Forall (valid_frame s) frames ->
  classifications (vad_unit_frame_ratio s) (model (vad_unit s))
    (prev_vad_unit_result s) (vad_unit_frame_buffer s) frames
  = repeat true (length frames) ->
  frames <> [] ->
  len frames = start_frame_num_thresh s - vad_unit_result_count s ->
  exists evs s',
    process_all frames s = (Ok evs, s')
    /\ map state evs = repeat Idle (length frames - 1) ++ [Started]
    /\ vad_state s' = Continue.
Proof.
  intros H0 Hr Hidle Hv Hclass Hne Hlen.
  pose proof (reachable_wf s0 s H0 Hr) as W.
  destruct (threshold_run Idle true Idle Started start_frame_num_thresh frames)
    with (s := s) as (evs & s' & Hrun & Htags & Hfinal);
    [left; repeat split; reflexivity| assumption ..|].
  exists evs, s'. repeat split; auto. cbn in Hfinal. congruence.
Qed.

(** X15.  Resting Continue with the counter [k >= 1] below
    [end_frame_num_thresh], [k] frames in a row classified non-speech are
    answered by [k - 1] Continue events and then Ended, and the engine rests
    Idle. *)
Theorem X15_ended_when_count_reaches_threshold s0 s (frames : list bytes) :
  fresh s0 -> reachable s0 s ->
  vad_state s = Continue ->
  Forall (valid_frame s) frames ->
  classifications (vad_unit_frame_ratio s) (model (vad_unit s))
    (prev_vad_unit_result s) (vad_unit_frame_buffer s) frames
  = repeat false (length frames) ->
  frames <> [] ->
  len frames = end_frame_num_thresh s - vad_unit_result_count s ->
  exists evs s',
    process_all frames s = (Ok evs, s')
    /\ map state evs = repeat Continue (length frames - 1) ++ [Ended]
    /\ vad_state s' = Idle.
Proof.
  intros H0 Hr Hcont Hv Hclass Hne Hlen.
  pose proof (reachable_wf s0 s H0 Hr) as W.
  destruct (threshold_run Continue false Continue Ended end_frame_num_thresh
              frames)
    with (s := s) as (evs & s' & Hrun & Htags & Hfinal);
    [right; repeat split; reflexivity| assumption ..|].
  exists evs, s'. repeat split; auto. cbn in Hfinal. congruence.
Qed.

(** A frame classified against the resting state: the counter goes to 0 and
    the engine stays, when the threshold is at least 1. *)
Lemma process_opposite self audio_data ev s' :
  process audio_data self = (Ok ev, s') ->
  (vad_state self = Idle -> prev_vad_unit_result s' = false ->
   1 <= start_frame_num_thresh self ->
   state ev = Idle /\ vad_state s' = Idle /\ vad_unit_result_count s' = 0)
  /\ (vad_state self = Continue -> prev_vad_unit_result s' = true ->
      1 <= end_frame_num_thresh self ->
      state ev = Continue /\ vad_state s' = Continue
      /\ vad_unit_result_count s' = 0).
Proof.
  intros H.
  pose proof (process_counts self audio_data ev s' H) as Hcount.
  pose proof (process_tag self audio_data ev s' H) as Htag.
  pose proof (process_tag_after self audio_data ev s' H) as Hafter.
  split; intros Hrest Hprev Hth; rewrite Hrest, Hprev in *;
    rewrite Hcount in Htag.
  - replace (0 >=? start_frame_num_thresh self) with false in Htag
      by (symmetry; rewrite Z.geb_leb; apply Z.leb_gt; lia).
    rewrite Htag in Hafter. cbn in Hafter. repeat split; congruence.
  - replace (0 >=? end_frame_num_thresh self) with false in Htag
      by (symmetry; rewrite Z.geb_leb; apply Z.leb_gt; lia).
    rewrite Htag in Hafter. cbn in Hafter. repeat split; congruence.
Qed.

(** X16.  With [start_frame_num_thresh >= 1], whatever the counter holds:
    after a frame classified non-speech while resting Idle, exactly
    [start_frame_num_thresh] frames in a row classified speech are needed
    for Started. *)
Theorem X16_start_needs_threshold_after_silence s0 s audio_data
    (frames : list bytes) :
  fresh s0 -> reachable s0 s ->
  vad_state s = Idle ->
  Forall (valid_frame s) (audio_data :: frames) ->
  classifications (vad_unit_frame_ratio s) (model (vad_unit s))
    (prev_vad_unit_result s) (vad_unit_frame_buffer s) (audio_data :: frames)
  = false :: repeat true (length frames) ->
  1 <= start_frame_num_thresh s ->
  len frames = start_frame_num_thresh s ->
  exists evs s',
    process_all (audio_data :: frames) s = (Ok evs, s')
    /\ map state evs = repeat Idle (length frames) ++ [Started]
    /\ vad_state s' = Continue.
Proof.
  intros H0 Hr Hidle Hv Hclass Hth Hlen.
  pose proof (reachable_wf s0 s H0 Hr) as W.
  inversion Hv as [|? ? Ha Hvrest]; subst.
  destruct (process_returns s audio_data W Ha) as [ev Hev].
  pose proof (process_wf s audio_data W) as W1.
  destruct (process audio_data s) as [r s1] eqn:E1. cbn [fst snd] in *.
  subst r.
  pose proof (process_keeps_config_at s audio_data _ _ E1) as C.
  rewrite (classifications_step s audio_data frames ev s1 E1) in Hclass.
  injection Hclass as Hprev Hclass.
  destruct (process_opposite s audio_data ev s1 E1) as [Hopp _].
  destruct (Hopp Hidle Hprev Hth) as (Htag & Hidle1 & Hzero).
  destruct (threshold_run Idle true Idle Started start_frame_num_thresh frames)
    with (s := s1) as (evs & s' & Hrun & Htags & Hfinal);
    [left; repeat split; reflexivity|exact W1|exact Hidle1| |exact Hclass| | |].
  - eapply Forall_impl; [|exact Hvrest].
    intros f Hf. eapply valid_frame_config; eauto.
  - intros ->. cbn in Hlen. lia.
  - rewrite Hzero, (same_start_thresh _ _ C). lia.
  - rewrite process_all_cons, E1, Hrun.
    exists (ev :: evs), s'. split; [reflexivity|].
    split; [|cbn in Hfinal; congruence].
    cbn [map]. rewrite Htags, Htag.
    destruct frames as [|f rest]; [cbn in Hlen; lia|].
    cbn [length Nat.sub repeat app]. rewrite Nat.sub_0_r. reflexivity.
Qed.

(** X17.  With [end_frame_num_thresh >= 1], whatever the counter holds:
    after a frame classified speech while resting Continue, exactly
    [end_frame_num_thresh] frames in a row classified non-speech are needed
    for Ended. *)
Theorem X17_end_needs_threshold_after_speech s0 s audio_data
    (frames : list bytes) :
  fresh s0 -> reachable s0 s ->
  vad_state s = Continue ->
  Forall (valid_frame s) (audio_data :: frames) ->
  classifications (vad_unit_frame_ratio s) (model (vad_unit s))
    (prev_vad_unit_result s) (vad_unit_frame_buffer s) (audio_data :: frames)
  = true :: repeat false (length frames) ->
  1 <= end_frame_num_thresh s ->
  len frames = end_frame_num_thresh s ->
  exists evs s',
    process_all (audio_data :: frames) s = (Ok evs, s')
    /\ map state evs = repeat Continue (length frames) ++ [Ended]
    /\ vad_state s' = Idle.
Proof.
  intros H0 Hr Hcont Hv Hclass Hth Hlen.
  pose proof (reachable_wf s0 s H0 Hr) as W.
  inversion Hv as [|? ? Ha Hvrest]; subst.
  destruct (process_returns s audio_data W Ha) as [ev Hev].
  pose proof (process_wf s audio_data W) as W1.
  destruct (process audio_data s) as [r s1] eqn:E1. cbn [fst snd] in *.
  subst r.
  pose proof (process_keeps_config_at s audio_data _ _ E1) as C.
  rewrite (classifications_step s audio_data frames ev s1 E1) in Hclass.
  injection Hclass as Hprev Hclass.
  destruct (process_opposite s audio_data ev s1 E1) as [_ Hopp].
  destruct (Hopp Hcont Hprev Hth) as (Htag & Hcont1 & Hzero).
  destruct (threshold_run Continue false Continue Ended end_frame_num_thresh
              frames)
    with (s := s1) as (evs & s' & Hrun & Htags & Hfinal);
    [right; repeat split; reflexivity|exact W1|exact Hcont1| |exact Hclass| | |].
  - eapply Forall_impl; [|exact Hvrest].
    intros f Hf. eapply valid_frame_config; eauto.
  - intros ->. cbn in Hlen. lia.
  - rewrite Hzero, (same_end_thresh _ _ C). lia.
  - rewrite process_all_cons, E1, Hrun.
    exists (ev :: evs), s'. split; [reflexivity|].
    split; [|cbn in Hfinal; congruence].
    cbn [map]. rewrite Htags, Htag.
    destruct frames as [|f rest]; [cbn in Hlen; lia|].
    cbn [length Nat.sub repeat app]. rewrite Nat.sub_0_r. reflexivity.
Qed.

(** ** Calls of the unit *)

Lemma windows_length (ratio : Z) (frames : list bytes) :
  1 <= ratio ->
  forall pending,
    len pending < ratio ->
    len (windows ratio pending frames) = (len pending + len frames) / ratio.
Proof.
  intros Hratio. induction frames as [|audio_data rest IH]; intros pending Hp.
  - len_simpl. cbn [windows]. len_simpl. symmetry. apply Z.div_small.
    pose proof (len_nonneg pending). lia.
  - rewrite windows_cons. len_simpl.
    destruct (len pending + (0 + 1) =? ratio) eqn:E; to_Z.
    + len_simpl. rewrite IH by (len_simpl; lia). len_simpl.
      replace (len pending + (len rest + 1)) with (1 * ratio + len rest) by lia.
      rewrite Z.div_add_l by lia. rewrite ?Z.add_0_l. lia.
    + rewrite IH by (len_simpl; lia). len_simpl. f_equal. lia.
Qed.

(** X18.  Over a stream the unit is asked once per complete window: about
    the concatenation of each group of [vad_unit_frame_ratio] successive
    frames, the frames already waiting included, in order, and about nothing
    else; that is (waiting + submitted) / ratio times, rounded down. *)
Theorem X18_unit_asked_once_per_window s0 s (frames : list bytes) evs s' :
  fresh s0 -> reachable s0 s ->
  0 < samples_per_frame s0 ->
  process_all frames s = (Ok evs, s') ->
  let asked :=
    windows (vad_unit_frame_ratio s) (vad_unit_frame_buffer s) frames in
  model (vad_unit s') = after_windows (model (vad_unit s)) asked
  /\ len asked
     = (len (vad_unit_frame_buffer s) + len frames) / vad_unit_frame_ratio s.
Proof.
  intros H0 Hr Hpos Hrun. cbv zeta.
  pose proof (reachable_wf s0 s H0 Hr) as W.
  destruct (fresh_width s0 s H0 Hr) as (_ & _ & _ & Hle).
  pose proof (same_samples_per_frame _ _ (reachable_config s0 s Hr)) as Hspf.
  pose proof (wf_ratio s W) as Hratio.
  assert (Hone : 1 <= vad_unit_frame_ratio s) by nia.
  split.
  - exact (run_asks_windows frames s evs s' Hrun).
  - apply windows_length; [exact Hone|]. apply (wf_short s W). lia.
Qed.

Lemma last_cons_default {A : Type} (l : list A) :
  forall x d : A, last (x :: l) d = last l x.
Proof.
  induction l as [|y l IH]; intros x d; [reflexivity|].
  change (last (x :: y :: l) d) with (last (y :: l) d).
  rewrite (IH y d), (IH y x). reflexivity.
Qed.

(** X19.  The classification the engine holds after a stream is the unit's
    answer on the last window the stream completed, and the classification
    it held before when the stream completed none. *)
Theorem X19_classification_is_latest_answer (frames : list bytes) s evs s' :
  process_all frames s = (Ok evs, s') ->
  prev_vad_unit_result s'
  = last (answers (model (vad_unit s))
            (windows (vad_unit_frame_ratio s) (vad_unit_frame_buffer s) frames))
      (prev_vad_unit_result s).
Proof.
  revert s evs. induction frames as [|audio_data rest IH]; intros s evs Hrun.
  - inversion Hrun. reflexivity.
  - rewrite process_all_cons in Hrun.
    destruct (process audio_data s) as [[ev|e] s1] eqn:E1; [|discriminate].
    destruct (process_all rest s1) as [[more|e] s2] eqn:E2; [|discriminate].
    inversion Hrun; subst.
    pose proof (same_ratio _ _ (process_keeps_config_at s audio_data _ _ E1))
      as C.
    destruct (process_classifies s audio_data ev s1 E1) as [Hfull Hpart].
    cbv zeta in Hfull, Hpart.
    rewrite (IH s1 more E2), C, windows_cons.
    destruct (len (vad_unit_frame_buffer s ++ [audio_data])
              =? vad_unit_frame_ratio s) eqn:E; to_Z.
    + destruct (Hfull E) as [Hinfer ->]. cbn [answers]. rewrite Hinfer.
      rewrite last_cons_default. reflexivity.
    + destruct (Hpart E) as (-> & -> & ->). reflexivity.
Qed.

End Streams.

(** ** Runs of the concrete engines, continued *)

Lemma fresh_webrtc_negative : fresh webrtc_negative.
Proof. apply (fresh_webrtc (args_frame (-160) false)). reflexivity. Qed.

Lemma fresh_webrtc_idle_output : fresh webrtc_idle_output.
Proof. apply (fresh_webrtc (args_frame 160 true)). reflexivity. Qed.

Lemma fresh_webrtc_rollback2 : fresh webrtc_rollback2.
Proof. apply (fresh_webrtc (args_with 5 2 30)). reflexivity. Qed.

Lemma process_all_events (frames : list bytes) (s : StreamingVAD nat)
    (H : is_ok (fst (process_all frames s)) = true) :
  process_all frames s = (Ok (events frames s H), after frames s).
Proof.
  unfold events, after. destruct (process_all frames s) as [[evs|e] s'].
  - reflexivity.
  - discriminate H.
Qed.

(** X2, at a frame length of 0 over the Silero unit. *)
Lemma X2_witness : __init__ (args_frame 0 false) silero_unit = Raise ZeroDivisionError.
Proof.
  apply X2_init_zero_samples.
  - reflexivity.
  - reflexivity.
  - vm_compute. discriminate.
  - reflexivity.
Defined.

(** X4, at the default engine after a frame. *)
Lemma X4_witness :
  let s := after [speech] webrtc_default in
  sample_width s = 2
  /\ In (sample_rate s) [8000; 16000; 32000; 48000]
  /\ (is_ok (fst (process silence s)) = true <->
      len silence = 2 * samples_per_frame s).
Proof.
  apply (X4_engine_sample_format webrtc_default).
  - exact fresh_webrtc_default.
  - apply reachable_after.
Defined.

(** X5, at [samples_per_frame=-160] over the WebRTC unit. *)
Lemma X5_witness :
  process speech webrtc_negative
  = (Raise (AssertionError DataSizeInvalid), webrtc_negative).
Proof.
  apply (X5_negative_frame_length webrtc_negative).
  - exact fresh_webrtc_negative.
  - apply reach_fresh.
  - vm_compute. reflexivity.
Defined.

(** X6, at the default engine over the Silero unit after six frames. *)
Lemma X6_witness :
  let s := after (repeat speech 6) silero_default in
  1 <= vad_unit_frame_ratio s
  /\ vad_unit_frame_ratio s * samples_per_frame s
     = _samples_per_frame (vad_unit s)
  /\ len (vad_unit_frame_buffer s) < vad_unit_frame_ratio s.
Proof.
  apply (X6_pending_below_ratio silero_default).
  - exact fresh_silero_default.
  - apply reachable_after.
  - vm_compute. reflexivity.
Defined.

(** X7, at a rollback of 2 after seven silent frames. *)
Lemma X7_witness :
  len (vad_result_buffer (after (repeat silence 7) webrtc_rollback2))
  <= Z.max 0 (start_frame_rollback webrtc_rollback2).
Proof.
  apply X7_rollback_buffer_bounded.
  - exact fresh_webrtc_rollback2.
  - apply reachable_after.
Defined.

(** X8, at two segments on the default engine. *)
Lemma X8_witness :
  tags_after (vad_state webrtc_default)
    (map state (events two_segments webrtc_default eq_refl))
  = Some (vad_state (after two_segments webrtc_default)).
Proof.
  apply (X8_event_tags_alternate two_segments webrtc_default
           (events two_segments webrtc_default eq_refl)
           (after two_segments webrtc_default)).
  apply process_all_events.
Defined.

(** X9, at a rollback of 2: the Started event carries the last two of eight
    frames. *)
Lemma X9_witness :
  data {| state := Started; data := [frame x01 x07; frame x01 x08] |}
  = lastn (Z.to_nat (start_frame_rollback webrtc_rollback2))
      (vad_result_buffer webrtc_rollback2 ++ onset).
Proof.
  apply (X9_started_payload_is_recent_frames webrtc_rollback2 webrtc_rollback2
           onset (repeat {| state := Idle; data := [] |} 7)
           {| state := Started; data := [frame x01 x07; frame x01 x08] |}
           (after onset webrtc_rollback2)).
  - exact fresh_webrtc_rollback2.
  - apply reach_fresh.
  - reflexivity.
  - vm_compute. discriminate.
  - vm_compute. reflexivity.
  - repeat (apply Forall_cons; [reflexivity|]). apply Forall_nil.
  - reflexivity.
Defined.

(** X10, at the default engine. *)
Lemma X10_witness :
  Forall (fun ev =>
            state ev = Idle ->
            len (data ev) <= 1
            /\ (output_idle_frame webrtc_default = false -> data ev = []))
    (events (repeat silence 12 ++ repeat speech 6) webrtc_default eq_refl).
Proof.
  apply (X10_idle_payload (repeat silence 12 ++ repeat speech 6) webrtc_default
           _ (after (repeat silence 12 ++ repeat speech 6) webrtc_default)).
  apply process_all_events.
Defined.

(** X11, at the engine of [demo.py] with thirteen silent frames: three come
    out in Idle events, ten stay in the buffer. *)
Lemma X11_witness :
  concat (map data (events long_silence webrtc_idle_output eq_refl))
  ++ vad_result_buffer (after long_silence webrtc_idle_output)
  = vad_result_buffer webrtc_idle_output ++ long_silence.
Proof.
  apply (X11_idle_output_keeps_frames long_silence webrtc_idle_output
           (events long_silence webrtc_idle_output eq_refl)
           (after long_silence webrtc_idle_output)).
  - apply process_all_events.
  - reflexivity.
  - reflexivity.
  - vm_compute. repeat (apply Forall_cons; [reflexivity|]). apply Forall_nil.
Defined.


(** X13, at a segment on the default engine. *)
Lemma X13_witness :
  Forall (fun ev =>
            Forall (fun f =>
                      len f
                      = sample_width webrtc_default
                        * samples_per_frame webrtc_default)
              (data ev))
    (events (repeat silence 3 ++ repeat speech 7) webrtc_default eq_refl).
Proof.
  apply (X13_payload_frame_sizes webrtc_default webrtc_default
           (repeat silence 3 ++ repeat speech 7) _
           (after (repeat silence 3 ++ repeat speech 7) webrtc_default)).
  - exact fresh_webrtc_default.
  - apply reach_fresh.
  - apply process_all_events.
Defined.

(** X14, at the default engine after a silent frame: five speech frames. *)
Lemma X14_witness :
  exists evs s',
    process_all (repeat speech 5) (after [silence] webrtc_default) = (Ok evs, s')
    /\ map state evs = repeat Idle (length (repeat speech 5) - 1) ++ [Started]
    /\ vad_state s' = Continue.
Proof.
  apply (X14_started_when_count_reaches_threshold webrtc_default).
  - exact fresh_webrtc_default.
  - apply reachable_after.
  - vm_compute. reflexivity.
  - valid_frames.
  - vm_compute. reflexivity.
  - discriminate.
  - vm_compute. reflexivity.
Defined.

(** X15, at the default engine right after Started, where the counter
    holds 5: twenty-five silent frames. *)
Lemma X15_witness :
  exists evs s',
    process_all (repeat silence 25) (after (repeat speech 5) webrtc_default)
    = (Ok evs, s')
    /\ map state evs
       = repeat Continue (length (repeat silence 25) - 1) ++ [Ended]
    /\ vad_state s' = Idle.
Proof.
  apply (X15_ended_when_count_reaches_threshold webrtc_default).
  - exact fresh_webrtc_default.
  - apply reachable_after.
  - vm_compute. reflexivity.
  - valid_frames.
  - vm_compute. reflexivity.
  - discriminate.
  - vm_compute. reflexivity.
Defined.

(** X16, at the default engine right after a segment, where the counter
    holds 30: a silent frame and five speech frames. *)
Lemma X16_witness :
  exists evs s',
    process_all (silence :: repeat speech 5)
      (after (repeat speech 5 ++ repeat silence 25) webrtc_default)
    = (Ok evs, s')
    /\ map state evs = repeat Idle (length (repeat speech 5)) ++ [Started]
    /\ vad_state s' = Continue.
Proof.
  apply (X16_start_needs_threshold_after_silence webrtc_default).
  - exact fresh_webrtc_default.
  - apply reachable_after.
  - vm_compute. reflexivity.
  - valid_frames.
  - vm_compute. reflexivity.
  - vm_compute. discriminate.
  - vm_compute. reflexivity.
Defined.

(** X17, at the default engine right after Started, where the counter
    holds 5: a speech frame and thirty silent frames. *)
Lemma X17_witness :
  exists evs s',
    process_all (speech :: repeat silence 30)
      (after (repeat speech 5) webrtc_default)
    = (Ok evs, s')
    /\ map state evs = repeat Continue (length (repeat silence 30)) ++ [Ended]
    /\ vad_state s' = Idle.
Proof.
  apply (X17_end_needs_threshold_after_speech webrtc_default).
  - exact fresh_webrtc_default.
  - apply reachable_after.
  - vm_compute. reflexivity.
  - valid_frames.
  - vm_compute. reflexivity.
  - vm_compute. discriminate.
  - vm_compute. reflexivity.
Defined.

(** X18, at the default engine over the Silero unit with two frames
    waiting: eleven more frames complete three windows. *)
Lemma X18_witness :
  let s := after (repeat speech 2) silero_default in
  let asked :=
    windows (vad_unit_frame_ratio s) (vad_unit_frame_buffer s)
      (repeat silence 11) in
  model (vad_unit (after (repeat silence 11) s))
  = after_windows (model (vad_unit s)) asked
  /\ len asked
     = (len (vad_unit_frame_buffer s) + len (repeat silence 11))
       / vad_unit_frame_ratio s.
Proof.
  apply (X18_unit_asked_once_per_window silero_default
           (after (repeat speech 2) silero_default) (repeat silence 11)
           (events (repeat silence 11) (after (repeat speech 2) silero_default)
              eq_refl)).
  - exact fresh_silero_default.
  - apply reachable_after.
  - vm_compute. reflexivity.
  - apply process_all_events.
Defined.

(** X19, at the default engine over the Silero unit: after a window of
    speech and two silent frames the classification is still speech. *)
Lemma X19_witness :
  prev_vad_unit_result (after (repeat speech 4 ++ repeat silence 2) silero_default)
  = last (answers (model (vad_unit silero_default))
            (windows (vad_unit_frame_ratio silero_default)
               (vad_unit_frame_buffer silero_default)
               (repeat speech 4 ++ repeat silence 2)))
      (prev_vad_unit_result silero_default).
Proof.
  apply (X19_classification_is_latest_answer
           (repeat speech 4 ++ repeat silence 2) silero_default
           (events (repeat speech 4 ++ repeat silence 2) silero_default eq_refl)).
  apply process_all_events.
Defined.
